(** * readyset, example 2-routing: a CRUD router over an in-memory slice

    Shallow embedding of [examples/2-routing/main.go].  The handlers are
    functions over the process-wide slice [todoItems] and the response
    writer handed to them by [net/http]; the pieces of the Go standard
    library the handlers call ([strconv.Atoi], [strconv.ParseBool],
    [fmt.Sprintf] with [%d], the response writer) are modelled next to
    them, following the library's sources. *)

From Stdlib Require Import ZArith String Ascii Bool Lia.
From stdpp Require Import base option list gmap strings.

Local Open Scope string_scope.
Local Open Scope list_scope.
Local Open Scope Z_scope.

(** ** strconv *)

Module strconv.

(** [NumError.Err]: the two failures a conversion reports. *)
Inductive NumError := ErrSyntax | ErrRange.

(** Go's [error] values of this package; [None] is [nil]. *)
Definition error := option NumError.

Definition byte_of (c : ascii) : Z := Z.of_N (N_of_ascii c).
Definition chr (b : Z) : ascii := ascii_of_N (Z.to_N b).

Definition is_sign (c : ascii) : bool :=
  Ascii.eqb c "-" || Ascii.eqb c "+".

Definition strlen (s : string) : Z := Z.of_nat (String.length s).

(** The digit loop of [Atoi]'s fast path: [ch -= '0'] is byte
    arithmetic, so anything below ['0'] wraps above 9. *)
Fixpoint atoi_loop (s : string) (n : Z) : option Z :=
  match s with
  | EmptyString => Some n
  | String c rest =>
      let ch := (byte_of c - 48) mod 256 in
      if 9 <? ch then None else atoi_loop rest (n * 10 + ch)
  end.

Definition maxUint64 : Z := 2 ^ 64 - 1.

(** [lower(c)] is [c | ('x' - 'X')]. *)
Definition lower (c : Z) : Z := Z.lor c 32.

(** The loop of [ParseUint(s, 10, 64)]; [n] is a uint64. *)
Fixpoint parseUint_loop (s : string) (n : Z) : Z * error :=
  match s with
  | EmptyString => (n, None)
  | String ch rest =>
      let c := byte_of ch in
      let d :=
        if (48 <=? c) && (c <=? 57) then Some (c - 48)
        else if (97 <=? lower c) && (lower c <=? 122)
             then Some (lower c - 97 + 10)
             else None in
      match d with
      | None => (0, Some ErrSyntax)
      | Some d =>
          if 10 <=? d then (0, Some ErrSyntax)
          else if maxUint64 / 10 + 1 <=? n then (maxUint64, Some ErrRange)
          else
            let n10 := n * 10 in
            let n1 := (n10 + d) mod 2 ^ 64 in
            if (n1 <? n10) || (maxUint64 <? n1)
            then (maxUint64, Some ErrRange)
            else parseUint_loop rest n1
      end
  end.

Definition ParseUint (s : string) : Z * error :=
  match s with
  | EmptyString => (0, Some ErrSyntax)
  | _ => parseUint_loop s 0
  end.

(** [ParseInt(s, 10, 0)] with [IntSize = 64]. *)
Definition ParseInt (s : string) : Z * error :=
  match s with
  | EmptyString => (0, Some ErrSyntax)
  | String c rest =>
      let neg := Ascii.eqb c "-" in
      let s1 := if is_sign c then rest else s in
      let '(un, err) := ParseUint s1 in
      match err with
      | Some ErrSyntax => (0, err)
      | _ =>
          let cutoff := 2 ^ 63 in
          if negb neg && (cutoff <=? un) then (cutoff - 1, Some ErrRange)
          else if neg && (cutoff <? un) then (- cutoff, Some ErrRange)
          else (if neg then - un else un, None)
      end
  end.

(** [Atoi]: the fast path for strings that cannot overflow an int,
    [ParseInt] for the rest. *)
Definition Atoi (s : string) : Z * error :=
  let sLen := strlen s in
  if (0 <? sLen) && (sLen <? 19) then
    match s with
    | EmptyString => (0, Some ErrSyntax)
    | String c rest =>
        let s1 := if is_sign c then rest else s in
        if is_sign c && (strlen s1 <? 1) then (0, Some ErrSyntax)
        else
          match atoi_loop s1 0 with
          | None => (0, Some ErrSyntax)
          | Some n => (if Ascii.eqb c "-" then - n else n, None)
          end
    end
  else ParseInt s.

Definition ParseBool (str : string) : bool * error :=
  if existsb (String.eqb str) ["1"; "t"; "T"; "true"; "TRUE"; "True"]
  then (true, None)
  else if existsb (String.eqb str) ["0"; "f"; "F"; "false"; "FALSE"; "False"]
  then (false, None)
  else (false, Some ErrSyntax).

(** Decimal formatting of an integer, as [fmt]'s [%d] and [FormatInt]
    do it: digits are produced from the least significant one into the
    end of a buffer.  [fuel] bounds the number of digits. *)
Fixpoint fmtUint (fuel : nat) (u : Z) (buf : string) : string :=
  match fuel with
  | O => buf
  | S fuel' =>
      if u <? 10 then String (chr (48 + u)) buf
      else fmtUint fuel' (u / 10) (String (chr (48 + u mod 10)) buf)
  end.

Definition digits_fuel (u : Z) : nat := S (Z.to_nat (Z.log2 u)).

Definition FormatInt (i : Z) : string :=
  if i <? 0 then String "-" (fmtUint (digits_fuel (- i)) (- i) "")
  else fmtUint (digits_fuel i) i "".

(** *** What [Atoi] accepts, stated on the text

    A reading of the text that does not follow the code: an optional
    sign, then one decimal digit or more, denoting a value of the
    64-bit [int].  [Atoi_int_of_text] below compares [Atoi] with it. *)

Definition is_digit (c : ascii) : bool :=
  (48 <=? byte_of c) && (byte_of c <=? 57).

Fixpoint all_digits (s : string) : bool :=
  match s with
  | EmptyString => true
  | String c rest => is_digit c && all_digits rest
  end.

Fixpoint decimal (s : string) (acc : Z) : Z :=
  match s with
  | EmptyString => acc
  | String c rest => decimal rest (acc * 10 + (byte_of c - 48))
  end.

Definition int_of_text (s : string) : option Z :=
  match s with
  | EmptyString => None
  | String c rest =>
      let digits := if is_sign c then rest else s in
      if negb (String.eqb digits "") && all_digits digits then
        let v := if Ascii.eqb c "-" then - decimal digits 0 else decimal digits 0 in
        if (- 2 ^ 63 <=? v) && (v <? 2 ^ 63) then Some v else None
      else None
  end.

(** Texts whose first byte is a decimal digit. *)
Definition starts_with_digit (s : string) : Prop :=
  exists d rest, 0 <= d <= 9 /\ s = String (chr (48 + d)) rest.

End strconv.

(** ** net/http: requests and the response writer *)

Module http.

Inductive method := GET | HEAD | POST | PUT | PATCH | DELETE | OPTIONS.

Definition is_HEAD (m : method) : bool :=
  match m with HEAD => true | _ => false end.

Definition StatusOK : Z := 200.
Definition StatusCreated : Z := 201.
Definition StatusBadRequest : Z := 400.
Definition StatusNotFound : Z := 404.

(** [url.Values] and [http.Header] are both [map[string][]string]. *)
Abbreviation Values := (gmap string (list string)).

(** What a handler asks of [*http.Request].  [Form] and [formErr] are
    what [r.ParseForm()] leaves in [r.Form] and returns; [pathValues]
    holds the wildcards bound by the mux. *)
Record Request := {
  Method : method;
  URLHost : string;
  pathValues : gmap string string;
  Form : Values;
  formErr : bool
}.

Definition PathValue (r : Request) (name : string) : string :=
  default "" (pathValues r !! name).

(** [r.ParseForm() != nil] *)
Definition ParseForm (r : Request) : bool := formErr r.

(** [r.FormValue(key)] once the form is parsed: the first value
    for the key, or the empty string. *)
Definition FormValue (r : Request) (key : string) : string :=
  match Form r !! key with
  | Some (v :: _) => v
  | _ => ""
  end.

(** The server's response for one request.  [head] records that the
    request's method is HEAD; [body] is what goes out on the
    connection after the header. *)
Record ResponseWriter := {
  head : bool;
  header : Values;
  wroteHeader : bool;
  status : Z;
  body : string
}.

Definition newResponse (r : Request) : ResponseWriter :=
  {| head := is_HEAD (Method r); header := ∅;
     wroteHeader := false; status := 0; body := "" |}.

(** [w.Header().Add(key, value)]; the keys used here are already in
    canonical form.  What is added after the header was written is
    not sent. *)
Definition Header_Add (w : ResponseWriter) (key value : string) : ResponseWriter :=
  if wroteHeader w then w
  else {| head := head w;
          header := <[key := default [] (header w !! key) ++ [value]]> (header w);
          wroteHeader := wroteHeader w; status := status w; body := body w |}.

Definition Header_Get (w : ResponseWriter) (key : string) : string :=
  match header w !! key with
  | Some (v :: _) => v
  | _ => ""
  end.

(** Only the first [WriteHeader] counts; a later one is logged as
    superfluous and dropped. *)
Definition WriteHeader (w : ResponseWriter) (code : Z) : ResponseWriter :=
  if wroteHeader w then w
  else {| head := head w; header := header w;
          wroteHeader := true; status := code; body := body w |}.

Definition bodyAllowedForStatus (code : Z) : bool :=
  if (100 <=? code) && (code <=? 199) then false
  else if code =? 204 then false
  else if code =? 304 then false
  else true.

(** [w.Write(data)]: an implicit [WriteHeader(200)] when none was
    written; no bytes for a status without a body; and on a HEAD
    request the connection's writer eats the bytes. *)
Definition Write (w : ResponseWriter) (data : string) : ResponseWriter :=
  let w := if wroteHeader w then w else WriteHeader w StatusOK in
  match data with
  | EmptyString => w
  | _ =>
      if negb (bodyAllowedForStatus (status w)) then w
      else if head w then w
      else {| head := head w; header := header w;
              wroteHeader := wroteHeader w; status := status w;
              body := body w +:+ data |}
  end.

(** When the handler returns without having written anything the
    server sends a 200. *)
Definition finishRequest (w : ResponseWriter) : ResponseWriter :=
  if wroteHeader w then w else WriteHeader w StatusOK.

End http.

Import http.

(** ** The todo items *)

Record TodoItem := { Content : string; Done : bool }.

(** [len(s)], an [int]. *)
Definition len {A} (s : list A) : Z := Z.of_nat (length s).

Definition in_range {A} (s : list A) (i : Z) : bool :=
  (0 <=? i) && (i <? len s).

(** Go panics on an index or a slice bound out of range; [None] is that
    panic. *)

(** [s[i]] *)
Definition index {A} (s : list A) (i : Z) : option A :=
  if in_range s i then s !! Z.to_nat i else None.

(** [s[i] = x] *)
Definition store {A} (s : list A) (i : Z) (x : A) : option (list A) :=
  if in_range s i then Some (<[Z.to_nat i := x]> s) else None.

(** [s[:i]] and [s[i:]], for [i] up to the length. *)
Definition slice_to {A} (s : list A) (i : Z) : option (list A) :=
  if (0 <=? i) && (i <=? len s) then Some (take (Z.to_nat i) s) else None.

Definition slice_from {A} (s : list A) (i : Z) : option (list A) :=
  if (0 <=? i) && (i <=? len s) then Some (drop (Z.to_nat i) s) else None.

(** A handler reads and writes the global [todoItems] and the response
    writer; [None] is a run-time panic inside the handler. *)
Definition HandlerFunc : Type :=
  ResponseWriter -> Request -> list TodoItem -> option (list TodoItem * ResponseWriter).

Definition dquote : string := String (ascii_of_nat 34) EmptyString.
Definition newline : string := String (ascii_of_nat 10) EmptyString.

Definition err_id_type : string := "`id` must be of type int".
Definition err_id_missing : string := "`id` not found".
Definition err_form : string := "invalid form".
Definition err_done_type : string := "`done` must be of type bool".

Section Handlers.

(** [encoding/json]'s rendering of a Go string as a JSON string
    literal, quotes included.  Its escaping rules belong to the
    library and are left open. *)
Variable jsonString : string -> string.

Definition jsonBool (b : bool) : string := if b then "true" else "false".

Definition marshalTodoItem (item : TodoItem) : string :=
  "{" +:+ dquote +:+ "Content" +:+ dquote +:+ ":" +:+ jsonString (Content item)
  +:+ "," +:+ dquote +:+ "Done" +:+ dquote +:+ ":" +:+ jsonBool (Done item) +:+ "}".

Fixpoint marshalElems (items : list TodoItem) : string :=
  match items with
  | [] => ""
  | [x] => marshalTodoItem x
  | x :: rest => marshalTodoItem x +:+ "," +:+ marshalElems rest
  end.

(** A non-nil slice is an array, also when it is empty. *)
Definition marshalTodoItems (items : list TodoItem) : string :=
  "[" +:+ marshalElems items +:+ "]".

(** [json.NewEncoder(w).Encode(v)] writes the value and a newline in
    one [Write]. *)
Definition Encode (w : ResponseWriter) (json : string) : ResponseWriter :=
  Write w (json +:+ newline).

Definition getTodoItems : HandlerFunc := fun w r todoItems =>
  Some (todoItems, Encode w (marshalTodoItems todoItems)).

Definition getTodoItem : HandlerFunc := fun w r todoItems =>
  let '(id, err) := strconv.Atoi (PathValue r "id") in
  if err is Some _ then
    Some (todoItems, Write (WriteHeader w StatusBadRequest) err_id_type)
  else if (id <? 0) || (len todoItems - 1 <? id) then
    Some (todoItems, Write (WriteHeader w StatusNotFound) err_id_missing)
  else
    item ← index todoItems id;
    Some (todoItems, Encode w (marshalTodoItem item)).

End Handlers.

Definition getTodoItemExists : HandlerFunc := fun w r todoItems =>
  let '(id, err) := strconv.Atoi (PathValue r "id") in
  if err is Some _ then
    Some (todoItems, Write (WriteHeader w StatusBadRequest) err_id_type)
  else if (id <? 0) || (len todoItems - 1 <? id) then
    Some (todoItems, Write (WriteHeader w StatusNotFound) err_id_missing)
  else
    Some (todoItems, WriteHeader w StatusOK).

(** [fmt.Sprintf("%s/todo-item/%d", host, n)] *)
Definition sprintf_location (host : string) (n : Z) : string :=
  host +:+ "/todo-item/" +:+ strconv.FormatInt n.

Definition createTodoItem : HandlerFunc := fun w r todoItems =>
  if ParseForm r then
    Some (todoItems, Write (WriteHeader w StatusBadRequest) err_form)
  else
    let content := FormValue r "content" in
    let '(done, err) := strconv.ParseBool (FormValue r "done") in
    if err is Some _ then
      Some (todoItems, Write (WriteHeader w StatusBadRequest) err_done_type)
    else
      let todoItems := todoItems ++ [{| Content := content; Done := done |}] in
      let location := sprintf_location (URLHost r) (len todoItems - 1) in
      let w := Header_Add w "Location" location in
      Some (todoItems, WriteHeader w StatusCreated).

Definition replaceTodoItem : HandlerFunc := fun w r todoItems =>
  let '(id, err) := strconv.Atoi (PathValue r "id") in
  if err is Some _ then
    Some (todoItems, Write (WriteHeader w StatusBadRequest) err_id_type)
  else if (id <? 0) || (len todoItems - 1 <? id) then
    Some (todoItems, Write (WriteHeader w StatusNotFound) err_id_missing)
  else if ParseForm r then
    Some (todoItems, Write (WriteHeader w StatusBadRequest) err_form)
  else
    let content := FormValue r "content" in
    let '(done, err) := strconv.ParseBool (FormValue r "done") in
    if err is Some _ then
      Some (todoItems, Write (WriteHeader w StatusBadRequest) err_done_type)
    else
      todoItems ← store todoItems id {| Content := content; Done := done |};
      let location := sprintf_location (URLHost r) (len todoItems - 1) in
      let w := Header_Add w "Location" location in
      Some (todoItems, WriteHeader w StatusOK).

(** [todoItems[id].Content = content] and [todoItems[id].Done = done] *)
Definition store_Content (s : list TodoItem) (i : Z) (content : string) : option (list TodoItem) :=
  item ← index s i;
  store s i {| Content := content; Done := Done item |}.

Definition store_Done (s : list TodoItem) (i : Z) (done : bool) : option (list TodoItem) :=
  item ← index s i;
  store s i {| Content := Content item; Done := done |}.

Definition updateTodoItem : HandlerFunc := fun w r todoItems =>
  let '(id, err) := strconv.Atoi (PathValue r "id") in
  if err is Some _ then
    Some (todoItems, Write (WriteHeader w StatusBadRequest) err_id_type)
  else if (id <? 0) || (len todoItems - 1 <? id) then
    Some (todoItems, Write (WriteHeader w StatusNotFound) err_id_missing)
  else if ParseForm r then
    Some (todoItems, Write (WriteHeader w StatusBadRequest) err_form)
  else
    let content := FormValue r "content" in
    todoItems ← (if negb (String.eqb content "")
                 then store_Content todoItems id content
                 else Some todoItems);
    let doneStr := FormValue r "done" in
    if negb (String.eqb doneStr "") then
      let '(done, err) := strconv.ParseBool doneStr in
      if err is Some _ then
        Some (todoItems, Write (WriteHeader w StatusBadRequest) err_done_type)
      else
        todoItems ← store_Done todoItems id done;
        Some (todoItems, WriteHeader w StatusOK)
    else
      Some (todoItems, WriteHeader w StatusOK).

(** The item at [id] after the [content] step of Update. *)
Definition after_content (r : Request) (item : TodoItem) : TodoItem :=
  if negb (String.eqb (FormValue r "content") "")
  then {| Content := FormValue r "content"; Done := Done item |}
  else item.

Definition deleteTodoItem : HandlerFunc := fun w r todoItems =>
  let '(id, err) := strconv.Atoi (PathValue r "id") in
  if err is Some _ then
    Some (todoItems, Write (WriteHeader w StatusBadRequest) err_id_type)
  else if (id <? 0) || (len todoItems - 1 <? id) then
    Some (todoItems, Write (WriteHeader w StatusNotFound) err_id_missing)
  else
    front ← slice_to todoItems id;
    back ← slice_from todoItems (id + 1);
    Some (front ++ back, WriteHeader w StatusOK).

(** ** The routes registered in [main] *)

Inductive Route :=
| GET_todo_item
| GET_todo_item_id
| HEAD_todo_item_id
| POST_todo_item
| PUT_todo_item_id
| PATCH_todo_item_id
| DELETE_todo_item_id.

(** The method part of the patterns.  A GET pattern also matches HEAD,
    unless a pattern for HEAD on the same path is registered, which is
    then the more specific one. *)
Definition accepts (rt : Route) (m : method) : bool :=
  match rt, m with
  | GET_todo_item, (GET | HEAD) => true
  | GET_todo_item_id, GET => true
  | HEAD_todo_item_id, HEAD => true
  | POST_todo_item, POST => true
  | PUT_todo_item_id, PUT => true
  | PATCH_todo_item_id, PATCH => true
  | DELETE_todo_item_id, DELETE => true
  | _, _ => false
  end.

(** Routes whose pattern ends in the [{id}] wildcard. *)
Definition has_id (rt : Route) : bool :=
  match rt with
  | GET_todo_item | POST_todo_item => false
  | _ => true
  end.

Section Server.

Variable jsonString : string -> string.

(** [router.HandleFunc(pattern, handler)] *)
Definition router (rt : Route) : HandlerFunc :=
  match rt with
  | GET_todo_item => getTodoItems jsonString
  | GET_todo_item_id => getTodoItem jsonString
  | HEAD_todo_item_id => getTodoItemExists
  | POST_todo_item => createTodoItem
  | PUT_todo_item_id => replaceTodoItem
  | PATCH_todo_item_id => updateTodoItem
  | DELETE_todo_item_id => deleteTodoItem
  end.

(** One request served on the matching route: the new collection and
    the response. *)
Definition ServeHTTP (rt : Route) (r : Request) (todoItems : list TodoItem)
  : option (list TodoItem * ResponseWriter) :=
  '(todoItems, w) ← router rt (newResponse r) r todoItems;
  Some (todoItems, finishRequest w).

(** The collections the process can hold: empty at start, then
    whatever the served requests make of it. *)
Inductive reachable : list TodoItem -> Prop :=
| reachable_start : reachable []
| reachable_serve rt r s s' w :
    reachable s ->
    accepts rt (Method r) = true ->
    ServeHTTP rt r s = Some (s', w) ->
    reachable s'.

End Server.

(** A string without characters that need escaping is rendered between
    quotes as it is. *)
Definition jsonQuote (s : string) : string := dquote +:+ s +:+ dquote.

(** ** Start-up and shutdown: the listener goroutine and the panic guard *)

Module lifecycle.

(** The non-nil errors [ListenAndServe] and [Shutdown] return. *)
Inductive error :=
| ErrServerClosed
| OtherError (msg : string).

Definition error_eqb (a b : error) : bool :=
  match a, b with
  | ErrServerClosed, ErrServerClosed => true
  | OtherError x, OtherError y => String.eqb x y
  | _, _ => false
  end.

Definition Error (e : error) : string :=
  match e with
  | ErrServerClosed => "http: Server closed"
  | OtherError msg => msg
  end.

(** How a function body ends. *)
Inductive outcome :=
| Returns
| Panics (v : string).

(** The function literal started with [go]:
    [if err != nil && err != http.ErrServerClosed { panic(err) }]. *)
Definition listen (err : option error) : outcome :=
  match err with
  | Some e => if negb (error_eqb e ErrServerClosed) then Panics (Error e) else Returns
  | None => Returns
  end.

(** [if err := server.Shutdown(ctx); err != nil { panic(err) }] in
    [main]. *)
Definition shutdown (err : option error) : outcome :=
  match err with
  | Some e => Panics (Error e)
  | None => Returns
  end.

(** The calls a goroutine has deferred. *)
Inductive deferred := call_recoverer | call_cancel.

(** What is written to the error stream. *)
Inductive report :=
| RecovererLine (v : string)
| RuntimeTraceback (v : string).

Definition render_head (m : report) : string :=
  match m with
  | RecovererLine v => "unexpected panic occurred: " +:+ v
  | RuntimeTraceback v => "panic: " +:+ v
  end.

Inductive fate :=
| Continues
| Exits (code : Z) (stderr : report).

(** [recoverer] run as a deferred call of a goroutine that panics
    with [v]: [recover()] returns [v], the line is printed and
    [os.Exit(1)] ends the process. *)
Definition recoverer (v : string) : fate := Exits 1 (RecovererLine v).

(** A panic runs the deferred calls of its own goroutine, last
    deferred first.  When none of them stops it the runtime prints the
    panic with the goroutine's stack and exits with status 2. *)
Fixpoint unwind (defers : list deferred) (v : string) : fate :=
  match defers with
  | [] => Exits 2 (RuntimeTraceback v)
  | call_recoverer :: _ => recoverer v
  | call_cancel :: rest => unwind rest v
  end.

Definition goroutine (defers : list deferred) (body : outcome) : fate :=
  match body with
  | Returns => Continues
  | Panics v => unwind defers v
  end.

(** [main] has deferred [recoverer] and then [cancel] when it calls
    [Shutdown]; the goroutine started with [go func() { ... }()] has
    deferred nothing. *)
Definition main_defers : list deferred := [call_cancel; call_recoverer].
Definition listener_defers : list deferred := [].

Definition listener_goroutine (err : option error) : fate :=
  goroutine listener_defers (listen err).

Definition main_shutdown (err : option error) : fate :=
  goroutine main_defers (shutdown err).

End lifecycle.

(** ** The other two programs *)

(** [examples/1-shutdown/main.go]: one handler for every request, the
    listener in a goroutine of its own, the guard deferred in [main]. *)
Module shutdown_example.
Import lifecycle.

Definition pingHandler (w : ResponseWriter) (r : Request) : ResponseWriter :=
  Write w "pong!".

(** [launchServer], run with [go launchServer(&server)]. *)
Definition launchServer (err : option error) : outcome :=
  match err with
  | Some e => if negb (error_eqb e ErrServerClosed) then Panics (Error e) else Returns
  | None => Returns
  end.

(** [server.Shutdown(ctx)] as a statement: the error is dropped. *)
Definition shutdown (err : option error) : outcome := Returns.

(** [main] defers [recoverer], [cancel] and [cancel] again before it
    calls [Shutdown]; [launchServer] defers nothing. *)
Definition main_defers : list deferred := [call_cancel; call_cancel; call_recoverer].
Definition server_defers : list deferred := [].

Definition server_goroutine (err : option error) : fate :=
  goroutine server_defers (launchServer err).

Definition main_shutdown (err : option error) : fate :=
  goroutine main_defers (shutdown err).

End shutdown_example.

(** [examples/0-hello-world/main.go]: the listener runs in [main], which
    defers nothing. *)
Module hello_world.
Import lifecycle.

Definition helloWorld (w : ResponseWriter) (r : Request) : ResponseWriter :=
  Write w "hello, world!".

(** [if err := server.ListenAndServe(); err != nil { panic(err) }] *)
Definition listen (err : option error) : outcome :=
  match err with
  | Some e => Panics (Error e)
  | None => Returns
  end.

Definition main_defers : list deferred := [].

Definition main (err : option error) : fate :=
  goroutine main_defers (listen err).

End hello_world.

(** The item at [id] after both steps of Update, answered 200 or not. *)
Definition after_update (r : Request) (item : TodoItem) : TodoItem :=
  let item1 := after_content r item in
  if negb (String.eqb (FormValue r "done") "") then
    match strconv.ParseBool (FormValue r "done") with
    | (_, Some _) => item1
    | (done, None) => {| Content := Content item1; Done := done |}
    end
  else item1.

(** ** Requests and collections used in the examples *)

(** A request whose [{id}] wildcard matched [id] and whose form parsed
    to the given fields, one value each. *)
Definition request (m : method) (id : string) (fields : list (string * string)) : Request :=
  {| Method := m; URLHost := "";
     pathValues := {[ "id" := id ]};
     Form := list_to_map ((fun kv => (kv.1, [kv.2])) <$> fields);
     formErr := false |}.

Definition buy_milk : TodoItem := {| Content := "buy milk"; Done := false |}.
Definition walk_dog : TodoItem := {| Content := "walk the dog"; Done := true |}.
Definition pay_rent : TodoItem := {| Content := "pay rent"; Done := false |}.



(** * Properties *)

(** ** Decimal text and its parsing *)

Example Atoi_42 : strconv.Atoi "42" = (42, None).
Proof. reflexivity. Qed.
Example Atoi_minus1 : strconv.Atoi "-1" = (-1, None).
Proof. reflexivity. Qed.
Example Atoi_abc : snd (strconv.Atoi "abc") = Some strconv.ErrSyntax.
Proof. reflexivity. Qed.
Example Atoi_big : snd (strconv.Atoi "9223372036854775808") = Some strconv.ErrRange.
Proof. vm_compute. reflexivity. Qed.
Example Atoi_max : strconv.Atoi "9223372036854775807" = (9223372036854775807, None).
Proof. vm_compute. reflexivity. Qed.
Example FormatInt_ex : strconv.FormatInt 1203 = "1203" /\ strconv.FormatInt (-7) = "-7" /\ strconv.FormatInt 0 = "0".
Proof. vm_compute. auto. Qed.

Module strconv_facts.
Import strconv.

Ltac digit_cases d :=
  let H := fresh in
  assert (H : d = 0 \/ d = 1 \/ d = 2 \/ d = 3 \/ d = 4 \/ d = 5 \/ d = 6
              \/ d = 7 \/ d = 8 \/ d = 9) by lia;
  repeat (destruct H as [H | H]); subst d.

Lemma byte_of_chr_digit d : 0 <= d <= 9 -> byte_of (chr (48 + d)) = 48 + d.
Proof. intros Hd. digit_cases d; reflexivity. Qed.

Lemma is_sign_digit d : 0 <= d <= 9 -> is_sign (chr (48 + d)) = false.
Proof. intros Hd. digit_cases d; reflexivity. Qed.

Lemma minus_digit d : 0 <= d <= 9 -> Ascii.eqb (chr (48 + d)) "-" = false.
Proof. intros Hd. digit_cases d; reflexivity. Qed.

Lemma digits_fuel_enough u : 0 <= u -> u < 2 ^ Z.of_nat (digits_fuel u).
Proof.
  intros Hu. unfold digits_fuel.
  rewrite Nat2Z.inj_succ, Z2Nat.id by apply Z.log2_nonneg.
  destruct (Z.eq_dec u 0) as [-> | Hne]; [reflexivity |].
  apply Z.log2_spec. lia.
Qed.

Lemma tenth_fits f u : 0 <= u < 2 ^ Z.of_nat (S f) -> 0 <= u / 10 < 2 ^ Z.of_nat f.
Proof.
  rewrite Nat2Z.inj_succ, Z.pow_succ_r by lia. intros Hu.
  split; [apply Z.div_pos; lia |].
  apply Z.div_lt_upper_bound; lia.
Qed.

(** One step of the fast loop on a digit character. *)
Lemma atoi_loop_digit d rest n :
  0 <= d <= 9 ->
  atoi_loop (String (chr (48 + d)) rest) n = atoi_loop rest (n * 10 + d).
Proof.
  intros Hd. cbn [atoi_loop]. rewrite byte_of_chr_digit by done.
  replace (48 + d - 48) with d by lia.
  rewrite Z.mod_small by lia.
  destruct (Z.ltb_spec 9 d); [lia | done].
Qed.

Lemma atoi_loop_fmtUint f : forall u buf,
  0 <= u < 2 ^ Z.of_nat f ->
  atoi_loop (fmtUint f u buf) 0 = atoi_loop buf u.
Proof.
  induction f as [| f IH]; intros u buf Hu.
  - cbn in Hu. replace u with 0 by lia. done.
  - cbn [fmtUint]. destruct (Z.ltb_spec u 10) as [Hlt | Hge].
    + rewrite atoi_loop_digit by lia. done.
    + rewrite IH by (apply tenth_fits; done).
      pose proof (Z.mod_pos_bound u 10 ltac:(lia)).
      rewrite atoi_loop_digit by lia.
      f_equal. pose proof (Z.div_mod u 10 ltac:(lia)). lia.
Qed.

(** One step of [ParseUint]'s loop on a digit character that does
    not overflow. *)
Lemma parseUint_loop_digit d rest n :
  0 <= d <= 9 -> 0 <= n -> n * 10 + d <= maxUint64 ->
  parseUint_loop (String (chr (48 + d)) rest) n = parseUint_loop rest (n * 10 + d).
Proof.
  intros Hd Hn Hfit. cbn [parseUint_loop]. rewrite byte_of_chr_digit by done.
  unfold maxUint64 in *.
  destruct (Z.leb_spec 48 (48 + d)); [| lia].
  destruct (Z.leb_spec (48 + d) 57); [| lia].
  cbn [andb]. replace (48 + d - 48) with d by lia.
  destruct (Z.leb_spec 10 d); [lia |].
  change ((2 ^ 64 - 1) / 10 + 1) with 1844674407370955162 in *.
  change (2 ^ 64) with 18446744073709551616 in *.
  destruct (Z.leb_spec 1844674407370955162 n); [lia |].
  rewrite Z.mod_small by lia.
  destruct (Z.ltb_spec (n * 10 + d) (n * 10)); [lia |].
  destruct (Z.ltb_spec (18446744073709551616 - 1) (n * 10 + d)); [lia |].
  done.
Qed.

Lemma parseUint_loop_fmtUint f : forall u buf,
  0 <= u < 2 ^ Z.of_nat f -> u <= maxUint64 ->
  parseUint_loop (fmtUint f u buf) 0 = parseUint_loop buf u.
Proof.
  induction f as [| f IH]; intros u buf Hu Hmax.
  - cbn in Hu. replace u with 0 by lia. done.
  - cbn [fmtUint]. destruct (Z.ltb_spec u 10) as [Hlt | Hge].
    + rewrite parseUint_loop_digit by lia. done.
    + pose proof (Z.mod_pos_bound u 10 ltac:(lia)).
      pose proof (Z.div_mod u 10 ltac:(lia)).
      pose proof (tenth_fits f u Hu).
      rewrite IH by lia.
      rewrite parseUint_loop_digit by lia.
      f_equal. lia.
Qed.

Lemma fmtUint_starts_with_digit f : forall u buf,
  0 <= u -> (f = O -> starts_with_digit buf) ->
  starts_with_digit (fmtUint f u buf).
Proof.
  induction f as [| f IH]; intros u buf Hu Hbuf; [auto |].
  cbn [fmtUint]. destruct (Z.ltb_spec u 10).
  - exists u, buf. split; [lia | done].
  - apply IH; [apply Z.div_pos; lia |].
    intros _. exists (u mod 10), buf.
    pose proof (Z.mod_pos_bound u 10 ltac:(lia)). split; [lia | done].
Qed.

Lemma fmtUint_digits u :
  0 <= u -> starts_with_digit (fmtUint (digits_fuel u) u "").
Proof. intros Hu. apply fmtUint_starts_with_digit; [done | discriminate]. Qed.

(** An unsigned run of digits goes through either path of [Atoi]. *)
Lemma ParseUint_fmtUint u :
  0 <= u <= maxUint64 -> ParseUint (fmtUint (digits_fuel u) u "") = (u, None).
Proof.
  intros Hu. destruct (fmtUint_digits u) as (d & rest & Hd & Heq); [lia |].
  unfold ParseUint. rewrite Heq. rewrite <- Heq.
  rewrite parseUint_loop_fmtUint; [done | | lia].
  split; [lia | apply digits_fuel_enough; lia].
Qed.

Lemma strlen_pos c rest : (0 <? strlen (String c rest)) = true.
Proof. unfold strlen. cbn [String.length]. apply Z.ltb_lt. lia. Qed.

Lemma strlen_lt1 c rest : (strlen (String c rest) <? 1) = false.
Proof. unfold strlen. cbn [String.length]. apply Z.ltb_ge. lia. Qed.

Lemma Atoi_unsigned s u :
  starts_with_digit s ->
  atoi_loop s 0 = Some u -> ParseUint s = (u, None) -> u < 2 ^ 63 ->
  Atoi s = (u, None).
Proof.
  intros (d & rest & Hd & ->) Hfast Hslow Hu.
  unfold Atoi, ParseInt. rewrite strlen_pos.
  rewrite is_sign_digit, minus_digit by done.
  rewrite Hfast, Hslow. cbn [andb negb].
  destruct (Z.leb_spec (2 ^ 63) u); [lia |].
  destruct (strlen _ <? 19); done.
Qed.

Lemma Atoi_negative s u :
  starts_with_digit s ->
  atoi_loop s 0 = Some u -> ParseUint s = (u, None) -> u <= 2 ^ 63 ->
  Atoi (String "-" s) = (- u, None).
Proof.
  intros (d & rest & Hd & ->) Hfast Hslow Hu.
  unfold Atoi, ParseInt. rewrite strlen_pos.
  change (is_sign "-") with true. change (Ascii.eqb "-" "-") with true.
  cbv iota. rewrite strlen_lt1, Hfast, Hslow. cbn [andb negb].
  destruct (Z.ltb_spec (2 ^ 63) u); [lia |].
  destruct (strlen _ <? 19); done.
Qed.

(** Reading back what [%d] printed gives the integer printed, for
    every value of Go's [int]. *)
Lemma Atoi_FormatInt i :
  - 2 ^ 63 <= i < 2 ^ 63 -> Atoi (FormatInt i) = (i, None).
Proof.
  intros Hi. unfold FormatInt. destruct (Z.ltb_spec i 0) as [Hneg | Hpos].
  - replace i with (- - i) at 3 by lia.
    apply Atoi_negative; [apply fmtUint_digits; lia | | | lia].
    + rewrite atoi_loop_fmtUint; [done |].
      split; [lia | apply digits_fuel_enough; lia].
    + apply ParseUint_fmtUint. unfold maxUint64. lia.
  - apply Atoi_unsigned; [apply fmtUint_digits; lia | | | lia].
    + rewrite atoi_loop_fmtUint; [done |].
      split; [lia | apply digits_fuel_enough; lia].
    + apply ParseUint_fmtUint. unfold maxUint64. lia.
Qed.

(** *** [Atoi] against the reading of the text *)

Lemma byte_of_range c : 0 <= byte_of c < 256.
Proof.
  unfold byte_of. pose proof (N_ascii_bounded c). lia.
Qed.

Lemma is_digit_spec c : is_digit c = true <-> 48 <= byte_of c <= 57.
Proof.
  unfold is_digit. rewrite andb_true_iff, !Z.leb_le. done.
Qed.

Lemma atoi_loop_spec s : forall n,
  atoi_loop s n = if all_digits s then Some (decimal s n) else None.
Proof.
  induction s as [| c s IH]; intros n; [done |].
  cbn [atoi_loop all_digits decimal].
  pose proof (byte_of_range c) as Hb.
  destruct (is_digit c) eqn:Hd.
  - apply is_digit_spec in Hd. rewrite Z.mod_small by lia.
    destruct (Z.ltb_spec 9 (byte_of c - 48)); [lia |]. cbn [andb]. apply IH.
  - cbn [andb].
    assert (Hnd : byte_of c < 48 \/ 57 < byte_of c).
    { destruct (Z.le_gt_cases 48 (byte_of c)); [| lia].
      destruct (Z.le_gt_cases (byte_of c) 57); [| lia].
      assert (is_digit c = true) by (by apply is_digit_spec). congruence. }
    destruct Hnd as [Hlow | Hhigh].
    + replace (byte_of c - 48) with (byte_of c + 208 + (-1) * 256) by lia.
      rewrite Z_mod_plus_full, Z.mod_small by lia.
      destruct (Z.ltb_spec 9 (byte_of c + 208)); [done | lia].
    + rewrite Z.mod_small by lia.
      destruct (Z.ltb_spec 9 (byte_of c - 48)); [done | lia].
Qed.

(** The value of [k] digits read after [n] lies between [n] followed by
    zeros and [n + 1] followed by zeros. *)
Lemma decimal_bounds s : forall n,
  all_digits s = true -> 0 <= n ->
  n * 10 ^ strlen s <= decimal s n < (n + 1) * 10 ^ strlen s.
Proof.
  induction s as [| c s IH]; intros n Hs Hn.
  - change (strlen "") with 0. rewrite Z.pow_0_r. cbn [decimal]. lia.
  - cbn [all_digits] in Hs. apply andb_true_iff in Hs as [Hc Hs].
    apply is_digit_spec in Hc. cbn [decimal].
    specialize (IH (n * 10 + (byte_of c - 48)) Hs ltac:(lia)).
    assert (Hlen : strlen (String c s) = Z.succ (strlen s))
      by (unfold strlen; cbn [String.length]; lia).
    rewrite Hlen, Z.pow_succ_r by (unfold strlen; lia).
    assert (0 < 10 ^ strlen s) by (apply Z.pow_pos_nonneg; unfold strlen; lia).
    nia.
Qed.

Lemma decimal_ge s n : all_digits s = true -> 0 <= n -> n <= decimal s n.
Proof.
  intros Hs Hn. pose proof (decimal_bounds s n Hs Hn) as [H _].
  assert (0 < 10 ^ strlen s) by (apply Z.pow_pos_nonneg; unfold strlen; lia).
  nia.
Qed.

(** The digit of a byte as [ParseUint] computes it. *)
Lemma parseUint_digit_step ch rest n :
  is_digit ch = true -> 0 <= n ->
  parseUint_loop (String ch rest) n
  = if maxUint64 / 10 + 1 <=? n then (maxUint64, Some ErrRange)
    else if maxUint64 <? n * 10 + (byte_of ch - 48) then (maxUint64, Some ErrRange)
    else parseUint_loop rest (n * 10 + (byte_of ch - 48)).
Proof.
  intros Hc Hn. pose proof Hc as Hr. apply is_digit_spec in Hr.
  cbn [parseUint_loop]. unfold is_digit in Hc. rewrite Hc.
  destruct (Z.leb_spec 10 (byte_of ch - 48)); [lia |].
  unfold maxUint64.
  change ((2 ^ 64 - 1) / 10 + 1) with 1844674407370955162.
  change (2 ^ 64) with 18446744073709551616.
  destruct (Z.leb_spec 1844674407370955162 n); [done |].
  set (d := byte_of ch - 48) in *.
  destruct (Z.ltb_spec (18446744073709551616 - 1) (n * 10 + d)) as [Hover | Hfit].
  - replace (n * 10 + d) with (n * 10 + d - 18446744073709551616 + 1 * 18446744073709551616) by lia.
    rewrite Z_mod_plus_full, Z.mod_small by lia.
    destruct (Z.ltb_spec (n * 10 + d - 18446744073709551616) (n * 10)); [done | lia].
  - rewrite Z.mod_small by lia.
    destruct (Z.ltb_spec (n * 10 + d) (n * 10)); [lia |].
    destruct (Z.ltb_spec (18446744073709551616 - 1) (n * 10 + d)); [lia | done].
Qed.

Lemma parseUint_nondigit_step ch rest n :
  is_digit ch = false -> parseUint_loop (String ch rest) n = (0, Some ErrSyntax).
Proof.
  intros Hc. cbn [parseUint_loop]. unfold is_digit in Hc. rewrite Hc.
  destruct ((97 <=? lower (byte_of ch)) && (lower (byte_of ch) <=? 122)) eqn:E; [| done].
  apply andb_true_iff in E as [E _]. apply Z.leb_le in E.
  destruct (Z.leb_spec 10 (lower (byte_of ch) - 97 + 10)); [done | lia].
Qed.

Lemma parseUint_loop_ok s : forall n,
  all_digits s = true -> 0 <= n -> decimal s n <= maxUint64 ->
  parseUint_loop s n = (decimal s n, None).
Proof.
  induction s as [| c s IH]; intros n Hs Hn Hmax; [done |].
  cbn [all_digits] in Hs. apply andb_true_iff in Hs as [Hc Hs].
  rewrite parseUint_digit_step by done. cbn [decimal] in *.
  pose proof (proj1 (is_digit_spec c) Hc) as Hr.
  pose proof (decimal_ge s (n * 10 + (byte_of c - 48)) Hs ltac:(lia)) as Hge.
  unfold maxUint64 in *.
  change ((2 ^ 64 - 1) / 10 + 1) with 1844674407370955162.
  change (2 ^ 64) with 18446744073709551616 in *.
  destruct (Z.leb_spec 1844674407370955162 n); [lia |].
  destruct (Z.ltb_spec (18446744073709551616 - 1) (n * 10 + (byte_of c - 48))); [lia |].
  apply IH; [done | lia | done].
Qed.

Lemma parseUint_loop_no_error s : forall n,
  0 <= n <= maxUint64 -> snd (parseUint_loop s n) = None ->
  all_digits s = true /\ decimal s n <= maxUint64.
Proof.
  induction s as [| c s IH]; intros n Hn Herr; [cbn; split; [done | lia] |].
  destruct (is_digit c) eqn:Hc; [| by rewrite parseUint_nondigit_step in Herr].
  rewrite parseUint_digit_step in Herr by (done || lia).
  pose proof (proj1 (is_digit_spec c) Hc) as Hr.
  destruct (_ <=? n); [done |].
  destruct (Z.ltb_spec maxUint64 (n * 10 + (byte_of c - 48))); [done |].
  cbn [all_digits decimal]. rewrite Hc. apply IH; [lia | done].
Qed.

Lemma parseUint_loop_shape s : forall n,
  0 <= n ->
  snd (parseUint_loop s n) = None
  \/ parseUint_loop s n = (0, Some ErrSyntax)
  \/ parseUint_loop s n = (maxUint64, Some ErrRange).
Proof.
  induction s as [| c s IH]; intros n Hn; [by left |].
  destruct (is_digit c) eqn:Hc; [| right; left; by apply parseUint_nondigit_step].
  rewrite parseUint_digit_step by done.
  pose proof (proj1 (is_digit_spec c) Hc) as Hr.
  destruct (_ <=? n); [by right; right |].
  destruct (_ <? _); [by right; right |].
  apply IH. lia.
Qed.

(** [ParseUint] on a text that is not empty: the digits' value when
    they are digits and fit a uint64, one of its two errors otherwise. *)
Lemma ParseUint_cases c s :
  (all_digits (String c s) = true /\ decimal (String c s) 0 <= maxUint64
   /\ ParseUint (String c s) = (decimal (String c s) 0, None))
  \/ ((all_digits (String c s) = false \/ maxUint64 < decimal (String c s) 0)
      /\ (ParseUint (String c s) = (0, Some ErrSyntax)
          \/ ParseUint (String c s) = (maxUint64, Some ErrRange))).
Proof.
  unfold ParseUint.
  destruct (parseUint_loop_shape (String c s) 0 ltac:(lia)) as [Hok | Herr].
  - left. apply parseUint_loop_no_error in Hok as [Hd Hm]; [| unfold maxUint64; lia].
    split; [done |]. split; [done |]. by apply parseUint_loop_ok.
  - right. split; [| done].
    destruct (all_digits (String c s)) eqn:Hd; [| by left]. right.
    destruct (Z.lt_ge_cases maxUint64 (decimal (String c s) 0)) as [| Hfit]; [done |].
    rewrite parseUint_loop_ok in Herr by (done || lia).
    destruct Herr as [Herr | Herr]; discriminate.
Qed.

Lemma strlen_nonneg s : 0 <= strlen s.
Proof. unfold strlen. lia. Qed.

Lemma strlen_String c s : strlen (String c s) = strlen s + 1.
Proof. unfold strlen. cbn [String.length]. lia. Qed.

Lemma strlen_lt1_empty s : (strlen s <? 1) = String.eqb s "".
Proof.
  destruct s as [| c s]; [done |]. rewrite strlen_String.
  pose proof (strlen_nonneg s). destruct (Z.ltb_spec (strlen s + 1) 1); [lia | done].
Qed.

Lemma minus_is_sign c : Ascii.eqb c "-" = true -> is_sign c = true.
Proof. unfold is_sign. by intros ->. Qed.

(** Short runs of digits fit an [int]. *)
Lemma decimal_short s :
  all_digits s = true -> strlen s < 19 -> 0 <= decimal s 0 < 2 ^ 63.
Proof.
  intros Hs Hlen. pose proof (decimal_bounds s 0 Hs ltac:(lia)) as [Hlo Hhi].
  pose proof (strlen_nonneg s).
  assert (10 ^ strlen s <= 10 ^ 18) by (apply Z.pow_le_mono_r; lia).
  change (10 ^ 18) with 1000000000000000000 in *.
  change (2 ^ 63) with 9223372036854775808. lia.
Qed.

(** [ParseInt] of an optional sign and a text that is not empty. *)
Lemma ParseInt_int_of_text c rest :
  match int_of_text (String c rest) with
  | Some v => ParseInt (String c rest) = (v, None)
  | None => snd (ParseInt (String c rest)) <> None
  end.
Proof.
  unfold int_of_text, ParseInt.
  set (digits := if is_sign c then rest else String c rest).
  destruct digits as [| d ds]; [cbn; discriminate |].
  change (String.eqb (String d ds) "") with false. cbn [negb andb].
  set (hi := 2 ^ 63). assert (Hhi : hi = 9223372036854775808) by reflexivity.
  clearbody hi.
  destruct (ParseUint_cases d ds) as [(Hd & Hm & ->) | (Hbad & Herr)].
  - rewrite Hd. set (u := decimal (String d ds) 0) in *.
    assert (0 <= u) by (apply decimal_ge; [done | lia]).
    cbv zeta. destruct (Ascii.eqb c "-"); cbn [negb andb].
    + destruct (Z.ltb_spec hi u), (Z.leb_spec (- hi) (- u)), (Z.ltb_spec (- u) hi);
        try lia; cbn; done.
    + destruct (Z.leb_spec hi u), (Z.leb_spec (- hi) u), (Z.ltb_spec u hi);
        try lia; cbn; done.
  - set (v := if Ascii.eqb c "-" then - decimal (String d ds) 0
              else decimal (String d ds) 0).
    assert (Hnone :
      (if all_digits (String d ds)
       then if (- hi <=? v) && (v <? hi) then Some v else None
       else None) = None).
    { destruct (all_digits (String d ds)); [| done].
      destruct Hbad as [| Hbig]; [done |]. unfold maxUint64 in Hbig.
      change (2 ^ 64) with 18446744073709551616 in Hbig. subst v.
      destruct (Ascii.eqb c "-").
      - destruct (Z.leb_spec (- hi) (- decimal (String d ds) 0)); [lia | done].
      - destruct (Z.ltb_spec (decimal (String d ds) 0) hi); [lia |].
        by rewrite andb_false_r. }
    rewrite Hnone. destruct Herr as [-> | ->]; [cbn; discriminate |].
    unfold maxUint64. change (2 ^ 64 - 1) with 18446744073709551615.
    destruct (Ascii.eqb c "-"); cbn [negb andb].
    + destruct (Z.ltb_spec hi 18446744073709551615); [cbn; discriminate | lia].
    + destruct (Z.leb_spec hi 18446744073709551615); [cbn; discriminate | lia].
Qed.

(** [Atoi] returns an integer exactly on the texts that denote one, and
    returns that integer. *)
Theorem Atoi_int_of_text s :
  match int_of_text s with
  | Some v => Atoi s = (v, None)
  | None => snd (Atoi s) <> None
  end.
Proof.
  destruct s as [| c rest]; [cbn; discriminate |].
  unfold Atoi. rewrite strlen_pos. cbn [andb].
  destruct (Z.ltb_spec (strlen (String c rest)) 19) as [Hshort | Hlong];
    [| apply ParseInt_int_of_text].
  unfold int_of_text.
  set (digits := if is_sign c then rest else String c rest).
  assert (Hlen : strlen digits < 19).
  { subst digits. rewrite strlen_String in Hshort. pose proof (strlen_nonneg rest).
    destruct (is_sign c); [lia | rewrite strlen_String; lia]. }
  rewrite strlen_lt1_empty.
  destruct (String.eqb digits "") eqn:Hempty.
  - assert (Hsign : is_sign c = true).
    { subst digits. destruct (is_sign c); [done | discriminate]. }
    rewrite Hsign. cbn. discriminate.
  - rewrite andb_false_r. cbn [negb andb]. rewrite atoi_loop_spec.
    destruct (all_digits digits) eqn:Hd; [| cbn; discriminate].
    destruct (decimal_short digits Hd Hlen) as [Hlo Hhi].
    set (hi := 2 ^ 63) in *. clearbody hi. cbv zeta.
    destruct (Ascii.eqb c "-").
    + destruct (Z.leb_spec (- hi) (- decimal digits 0)); [| lia].
      destruct (Z.ltb_spec (- decimal digits 0) hi); [| lia]. done.
    + destruct (Z.leb_spec (- hi) (decimal digits 0)); [| lia].
      destruct (Z.ltb_spec (decimal digits 0) hi); [| lia]. done.
Qed.

Corollary Atoi_accepts_iff s :
  snd (Atoi s) = None <-> is_Some (int_of_text s).
Proof.
  pose proof (Atoi_int_of_text s) as H.
  destruct (int_of_text s) as [v |].
  - rewrite H. split; [eauto | done].
  - split; [done | intros [v Hv]; done].
Qed.

(** Different integers print differently. *)
Lemma FormatInt_inj i j : FormatInt i = FormatInt j -> i = j.
Proof.
  unfold FormatInt. intros Heq.
  assert (Hback : forall u, 0 <= u -> atoi_loop (fmtUint (digits_fuel u) u "") 0 = Some u).
  { intros u Hu. rewrite atoi_loop_fmtUint; [done |].
    split; [lia | apply digits_fuel_enough; lia]. }
  assert (Hnosign : forall u s, 0 <= u -> fmtUint (digits_fuel u) u "" <> String "-" s).
  { intros u s Hu Hs. destruct (fmtUint_digits u Hu) as (d & rest & Hd & Hd').
    rewrite Hd' in Hs. injection Hs as Hc _.
    pose proof (minus_digit d Hd) as Hm. rewrite Hc in Hm. discriminate. }
  destruct (Z.ltb_spec i 0), (Z.ltb_spec j 0).
  - pose proof (Hback (- i) ltac:(lia)) as Hi.
    pose proof (Hback (- j) ltac:(lia)) as Hj.
    assert (Hsame : fmtUint (digits_fuel (- i)) (- i) "" = fmtUint (digits_fuel (- j)) (- j) "")
      by congruence.
    rewrite Hsame in Hi. rewrite Hi in Hj. injection Hj. lia.
  - symmetry in Heq. apply Hnosign in Heq; [done | lia].
  - apply Hnosign in Heq; [done | lia].
  - pose proof (Hback i ltac:(lia)) as Hi.
    rewrite Heq, Hback in Hi by lia. congruence.
Qed.

End strconv_facts.

(** ** Bounds and slices *)

Lemma guard_in_range {A} (s : list A) (id : Z) :
  0 <= id < len s -> (id <? 0) || (len s - 1 <? id) = false.
Proof.
  intros H. destruct (Z.ltb_spec id 0); [lia |].
  destruct (Z.ltb_spec (len s - 1) id); [lia | done].
Qed.

Lemma guard_out_of_range {A} (s : list A) (id : Z) :
  id < 0 \/ len s <= id -> (id <? 0) || (len s - 1 <? id) = true.
Proof.
  intros H. destruct (Z.ltb_spec id 0); [done |].
  destruct (Z.ltb_spec (len s - 1) id); [done | lia].
Qed.

Lemma in_range_true {A} (s : list A) (i : Z) :
  0 <= i < len s -> in_range s i = true.
Proof.
  intros H. unfold in_range.
  destruct (Z.leb_spec 0 i); [| lia]. destruct (Z.ltb_spec i (len s)); [done | lia].
Qed.

Lemma in_range_false {A} (s : list A) (i : Z) :
  i < 0 \/ len s <= i -> in_range s i = false.
Proof.
  intros H. unfold in_range.
  destruct (Z.leb_spec 0 i); [| done]. destruct (Z.ltb_spec i (len s)); [lia | done].
Qed.

Lemma index_in_range {A} (s : list A) (i : Z) :
  0 <= i < len s -> index s i = s !! Z.to_nat i.
Proof. intros H. unfold index. by rewrite in_range_true. Qed.

Lemma index_is_Some {A} (s : list A) (i : Z) :
  0 <= i < len s -> is_Some (index s i).
Proof.
  intros H. rewrite index_in_range by done.
  apply lookup_lt_is_Some. unfold len in H. lia.
Qed.

Lemma index_Some_range {A} (s : list A) (i : Z) (x : A) :
  index s i = Some x -> 0 <= i < len s.
Proof.
  unfold index, in_range. destruct (Z.leb_spec 0 i), (Z.ltb_spec i (len s)); cbn; (done || lia).
Qed.

(** ** Error responses *)

(** A status and a message written to a fresh response: the status is
    the one given, and the message is the body unless the request is a
    HEAD request. *)
Lemma error_response (r : Request) (code : Z) (msg : string) :
  bodyAllowedForStatus code = true -> msg <> "" ->
  let w := Write (WriteHeader (newResponse r) code) msg in
  status w = code /\ body w = (if is_HEAD (Method r) then "" else msg)
  /\ header w = ∅ /\ wroteHeader w = true.
Proof.
  intros Hcode Hmsg w. subst w. unfold Write, WriteHeader, newResponse. cbn.
  destruct msg as [| c msg]; [done |]. rewrite Hcode. cbn.
  destruct (is_HEAD (Method r)); cbn; done.
Qed.

(** ** HEAD /todo-item/{id} *)

(** C2: a HEAD request for an integer id is answered with a status and
    nothing else: 200 when the id is within the collection, 404 when it
    is not, with an empty body both times and the collection as it was. *)
Theorem C2_exists_status_only (r : Request) (todoItems : list TodoItem) (id : Z) :
  Method r = HEAD ->
  strconv.Atoi (PathValue r "id") = (id, None) ->
  exists w,
    getTodoItemExists (newResponse r) r todoItems = Some (todoItems, w)
    /\ body w = ""
    /\ (0 <= id < len todoItems -> status w = 200)
    /\ (id < 0 \/ len todoItems <= id -> status w = 404).
Proof.
  intros Hm Hid. unfold getTodoItemExists. rewrite Hid.
  destruct (Z.lt_ge_cases id 0) as [Hneg | Hpos];
    [| destruct (Z.lt_ge_cases id (len todoItems)) as [Hin | Hout]].
  - rewrite guard_out_of_range by lia. eexists. split; [done |].
    destruct (error_response r StatusNotFound err_id_missing) as (Hs & Hb & _); [done.. |].
    rewrite Hm in Hb. split; [exact Hb | split; [lia | intros _; exact Hs]].
  - rewrite guard_in_range by lia. eexists. split; [done |].
    split; [done | split; [done | lia]].
  - rewrite guard_out_of_range by lia. eexists. split; [done |].
    destruct (error_response r StatusNotFound err_id_missing) as (Hs & Hb & _); [done.. |].
    rewrite Hm in Hb. split; [exact Hb | split; [lia | intros _; exact Hs]].
Qed.

Lemma C2_exists_status_only_witness :
  let r := request HEAD "1" [] in
  Method r = HEAD /\ strconv.Atoi (PathValue r "id") = (1, None) /\
  exists w,
    getTodoItemExists (newResponse r) r [buy_milk; walk_dog] = Some ([buy_milk; walk_dog], w)
    /\ body w = ""
    /\ (0 <= 1 < len [buy_milk; walk_dog] -> status w = 200)
    /\ (1 < 0 \/ len [buy_milk; walk_dog] <= 1 -> status w = 404).
Proof.
  intros r. split; [reflexivity |]. split; [vm_compute; reflexivity |].
  apply (C2_exists_status_only r [buy_milk; walk_dog] 1);
    [reflexivity | vm_compute; reflexivity].
Defined.

(** ** DELETE /todo-item/{id} *)

Lemma len_app {A} (s t : list A) : len (s ++ t) = len s + len t.
Proof. unfold len. rewrite length_app. lia. Qed.

Lemma delete_slices {A} (s : list A) (id : Z) :
  0 <= id < len s ->
  slice_to s id = Some (take (Z.to_nat id) s)
  /\ slice_from s (id + 1) = Some (drop (S (Z.to_nat id)) s).
Proof.
  intros H. unfold slice_to, slice_from.
  destruct (Z.leb_spec 0 id); [| lia]. destruct (Z.leb_spec id (len s)); [| lia].
  destruct (Z.leb_spec 0 (id + 1)); [| lia]. destruct (Z.leb_spec (id + 1) (len s)); [| lia].
  cbn [andb]. split; [done |]. do 2 f_equal. lia.
Qed.

Lemma deleteTodoItem_in_range (w : ResponseWriter) (r : Request) (todoItems : list TodoItem) (id : Z) :
  strconv.Atoi (PathValue r "id") = (id, None) ->
  0 <= id < len todoItems ->
  deleteTodoItem w r todoItems
  = Some (take (Z.to_nat id) todoItems ++ drop (S (Z.to_nat id)) todoItems,
          WriteHeader w StatusOK).
Proof.
  intros Hid Hin. unfold deleteTodoItem. rewrite Hid, guard_in_range by done.
  destruct (delete_slices todoItems id Hin) as [-> ->]. done.
Qed.

Section Removal.
Context {A : Type}.
Implicit Types (s : list A) (n j : nat).

Lemma removal_length s n :
  (n < length s)%nat -> length (take n s ++ drop (S n) s) = (length s - 1)%nat.
Proof. intros H. rewrite length_app, length_take, length_drop. lia. Qed.

Lemma removal_before s n j :
  (j < n)%nat -> (n < length s)%nat -> (take n s ++ drop (S n) s) !! j = s !! j.
Proof.
  intros Hj Hn. rewrite lookup_app_l by (rewrite length_take; lia).
  by apply lookup_take_lt.
Qed.

Lemma removal_after s n j :
  (n < j)%nat -> (n < length s)%nat -> (take n s ++ drop (S n) s) !! (j - 1)%nat = s !! j.
Proof.
  intros Hj Hn. rewrite lookup_app_r by (rewrite length_take; lia).
  rewrite lookup_drop, length_take. f_equal. lia.
Qed.
End Removal.

(** C5: deleting at a valid index answers 200, makes the collection one
    shorter, keeps the items before the index where they were and moves
    each item after it one index down. *)
Theorem C5_delete_shifts_later_items (r : Request) (todoItems : list TodoItem) (id : Z) :
  strconv.Atoi (PathValue r "id") = (id, None) ->
  0 <= id < len todoItems ->
  exists todoItems' w,
    deleteTodoItem (newResponse r) r todoItems = Some (todoItems', w)
    /\ status w = 200 /\ body w = ""
    /\ len todoItems' = len todoItems - 1
    /\ (forall j, 0 <= j < id -> index todoItems' j = index todoItems j)
    /\ (forall j, id < j < len todoItems -> index todoItems' (j - 1) = index todoItems j).
Proof.
  intros Hid Hin. rewrite (deleteTodoItem_in_range _ _ _ _ Hid Hin).
  set (n := Z.to_nat id). assert (Hn : (n < length todoItems)%nat) by (unfold len in Hin; lia).
  assert (Hlen : len (take n todoItems ++ drop (S n) todoItems) = len todoItems - 1).
  { unfold len. rewrite removal_length by done. lia. }
  do 2 eexists. split; [reflexivity |]. split; [done |]. split; [done |].
  split; [done |]. split.
  - intros j Hj. rewrite !index_in_range by lia.
    apply removal_before; lia.
  - intros j Hj. rewrite !index_in_range by lia.
    replace (Z.to_nat (j - 1)) with (Z.to_nat j - 1)%nat by lia.
    apply removal_after; lia.
Qed.

Lemma C5_delete_shifts_later_items_witness :
  let r := request DELETE "1" [] in
  let todoItems := [buy_milk; walk_dog; pay_rent] in
  strconv.Atoi (PathValue r "id") = (1, None) /\ 0 <= 1 < len todoItems /\
  exists todoItems' w,
    deleteTodoItem (newResponse r) r todoItems = Some (todoItems', w)
    /\ status w = 200 /\ body w = ""
    /\ len todoItems' = len todoItems - 1
    /\ (forall j, 0 <= j < 1 -> index todoItems' j = index todoItems j)
    /\ (forall j, 1 < j < len todoItems -> index todoItems' (j - 1) = index todoItems j).
Proof.
  intros r todoItems.
  assert (Hid : strconv.Atoi (PathValue r "id") = (1, None)) by (vm_compute; reflexivity).
  assert (Hin : 0 <= 1 < len todoItems) by (vm_compute; split; [discriminate | reflexivity]).
  split; [exact Hid |]. split; [exact Hin |].
  exact (C5_delete_shifts_later_items r todoItems 1 Hid Hin).
Defined.

Example delete_middle :
  fst <$> deleteTodoItem (newResponse (request DELETE "1" [])) (request DELETE "1" [])
            [buy_milk; walk_dog; pay_rent]
  = Some [buy_milk; pay_rent].
Proof. vm_compute. reflexivity. Qed.

(** ** Stores into the slice *)

Section Stores.
Context {A : Type}.
Implicit Types (s : list A) (i j : Z) (x : A).

Lemma len_insert s n x : len (<[n := x]> s) = len s.
Proof. unfold len. by rewrite length_insert. Qed.

Lemma store_in_range s i x :
  0 <= i < len s -> store s i x = Some (<[Z.to_nat i := x]> s).
Proof. intros H. unfold store. by rewrite in_range_true. Qed.

Lemma index_store_eq s i x :
  0 <= i < len s -> index (<[Z.to_nat i := x]> s) i = Some x.
Proof.
  intros H. rewrite index_in_range by (rewrite len_insert; done).
  apply list_lookup_insert_eq. unfold len in H. lia.
Qed.

Lemma index_store_ne s i j x :
  0 <= i -> j <> i -> index (<[Z.to_nat i := x]> s) j = index s j.
Proof.
  intros Hi Hne. unfold index, in_range. rewrite len_insert.
  destruct ((0 <=? j) && (j <? len s)) eqn:Hj; [| done].
  apply andb_true_iff in Hj as [Hj _]. apply Z.leb_le in Hj.
  apply list_lookup_insert_ne. lia.
Qed.
End Stores.

(** ** PUT /todo-item/{id} *)

Lemma replaceTodoItem_valid (w : ResponseWriter) (r : Request) (todoItems : list TodoItem)
      (id : Z) (done : bool) :
  strconv.Atoi (PathValue r "id") = (id, None) ->
  0 <= id < len todoItems ->
  ParseForm r = false ->
  strconv.ParseBool (FormValue r "done") = (done, None) ->
  replaceTodoItem w r todoItems
  = Some (<[Z.to_nat id := {| Content := FormValue r "content"; Done := done |}]> todoItems,
          WriteHeader
            (Header_Add w "Location" (sprintf_location (URLHost r) (len todoItems - 1)))
            StatusOK).
Proof.
  intros Hid Hin Hform Hdone. unfold replaceTodoItem.
  rewrite Hid, guard_in_range, Hform, Hdone by done.
  rewrite store_in_range by done. cbn. by rewrite len_insert.
Qed.

(** C10: a valid Replace keeps the length of the collection and every
    item at another index; the item at [id] becomes the pair sent. *)
Theorem C10_replace_touches_only_id (r : Request) (todoItems : list TodoItem)
        (id : Z) (done : bool) :
  strconv.Atoi (PathValue r "id") = (id, None) ->
  0 <= id < len todoItems ->
  ParseForm r = false ->
  strconv.ParseBool (FormValue r "done") = (done, None) ->
  exists todoItems' w,
    replaceTodoItem (newResponse r) r todoItems = Some (todoItems', w)
    /\ status w = 200
    /\ len todoItems' = len todoItems
    /\ (forall j, j <> id -> index todoItems' j = index todoItems j)
    /\ index todoItems' id = Some {| Content := FormValue r "content"; Done := done |}.
Proof.
  intros Hid Hin Hform Hdone.
  rewrite (replaceTodoItem_valid _ _ _ _ _ Hid Hin Hform Hdone).
  do 2 eexists. split; [reflexivity |]. split; [done |].
  split; [apply len_insert |]. split.
  - intros j Hj. apply index_store_ne; lia.
  - by apply index_store_eq.
Qed.

Lemma C10_replace_touches_only_id_witness :
  let r := request PUT "1" [("content", "walk the cat"); ("done", "false")] in
  let todoItems := [buy_milk; walk_dog; pay_rent] in
  strconv.Atoi (PathValue r "id") = (1, None) /\ 0 <= 1 < len todoItems /\
  ParseForm r = false /\ strconv.ParseBool (FormValue r "done") = (false, None) /\
  exists todoItems' w,
    replaceTodoItem (newResponse r) r todoItems = Some (todoItems', w)
    /\ status w = 200
    /\ len todoItems' = len todoItems
    /\ (forall j, j <> 1 -> index todoItems' j = index todoItems j)
    /\ index todoItems' 1 = Some {| Content := FormValue r "content"; Done := false |}.
Proof.
  intros r todoItems.
  assert (Hid : strconv.Atoi (PathValue r "id") = (1, None)) by (vm_compute; reflexivity).
  assert (Hin : 0 <= 1 < len todoItems) by (vm_compute; split; [discriminate | reflexivity]).
  assert (Hform : ParseForm r = false) by reflexivity.
  assert (Hdone : strconv.ParseBool (FormValue r "done") = (false, None))
    by (vm_compute; reflexivity).
  repeat (split; [assumption |]).
  exact (C10_replace_touches_only_id r todoItems 1 false Hid Hin Hform Hdone).
Defined.

Example replace_middle :
  let r := request PUT "1" [("content", "walk the cat"); ("done", "false")] in
  fst <$> replaceTodoItem (newResponse r) r [buy_milk; walk_dog; pay_rent]
  = Some [buy_milk; {| Content := "walk the cat"; Done := false |}; pay_rent].
Proof. vm_compute. reflexivity. Qed.

(** ** The Location header *)

Lemma append_inj_r (p a b : string) : p +:+ a = p +:+ b -> a = b.
Proof. induction p as [| c p IH]; cbn; intros H; [done |]. injection H as H. auto. Qed.

Lemma sprintf_location_inj (host : string) (n m : Z) :
  sprintf_location host n = sprintf_location host m -> n = m.
Proof.
  unfold sprintf_location. intros H.
  apply append_inj_r, append_inj_r in H. by apply strconv_facts.FormatInt_inj.
Qed.

Lemma Location_added (r : Request) (location : string) (code : Z) :
  let w := WriteHeader (Header_Add (newResponse r) "Location" location) code in
  header w !! "Location" = Some [location]
  /\ Header_Get w "Location" = location
  /\ status w = code /\ body w = "".
Proof.
  cbn. unfold Header_Get. cbn.
  rewrite lookup_insert_eq, lookup_empty. done.
Qed.

Lemma len_snoc {A} (s : list A) (x : A) : len (s ++ [x]) - 1 = len s.
Proof. rewrite len_app. unfold len at 2. cbn. lia. Qed.

Lemma createTodoItem_valid (w : ResponseWriter) (r : Request) (todoItems : list TodoItem)
      (done : bool) :
  ParseForm r = false ->
  strconv.ParseBool (FormValue r "done") = (done, None) ->
  createTodoItem w r todoItems
  = Some (todoItems ++ [{| Content := FormValue r "content"; Done := done |}],
          WriteHeader
            (Header_Add w "Location" (sprintf_location (URLHost r) (len todoItems)))
            StatusCreated).
Proof.
  intros Hform Hdone. unfold createTodoItem. rewrite Hform, Hdone.
  cbv zeta iota. by rewrite len_snoc.
Qed.

(** C3: the [Location] header of a successful Replace carries the last
    index of the collection after the operation, built as Create
    builds it, and not the id replaced: unless [id] is that last index
    the header names another index than the one modified. *)
Theorem C3_replace_location_is_last_index (r : Request) (todoItems : list TodoItem)
        (id : Z) (done : bool) :
  strconv.Atoi (PathValue r "id") = (id, None) ->
  0 <= id < len todoItems ->
  ParseForm r = false ->
  strconv.ParseBool (FormValue r "done") = (done, None) ->
  exists todoItems' w,
    replaceTodoItem (newResponse r) r todoItems = Some (todoItems', w)
    /\ status w = 200
    /\ header w !! "Location" = Some [sprintf_location (URLHost r) (len todoItems' - 1)]
    /\ (exists created wc,
          createTodoItem (newResponse r) r todoItems = Some (created, wc)
          /\ header wc !! "Location" = Some [sprintf_location (URLHost r) (len created - 1)])
    /\ (id <> len todoItems' - 1 ->
        Header_Get w "Location" <> sprintf_location (URLHost r) id).
Proof.
  intros Hid Hin Hform Hdone.
  rewrite (replaceTodoItem_valid _ _ _ _ _ Hid Hin Hform Hdone).
  rewrite (createTodoItem_valid _ _ _ _ Hform Hdone).
  do 2 eexists. split; [reflexivity |].
  rewrite len_insert.
  destruct (Location_added r (sprintf_location (URLHost r) (len todoItems - 1)) StatusOK)
    as (Hh & Hg & Hs & _).
  split; [exact Hs |]. split; [exact Hh |]. split.
  - do 2 eexists. split; [reflexivity |].
    destruct (Location_added r (sprintf_location (URLHost r) (len todoItems)) StatusCreated)
      as (Hh' & _).
    by rewrite Hh', len_snoc.
  - intros Hne. rewrite Hg. intros Heq. apply sprintf_location_inj in Heq. lia.
Qed.

Lemma C3_replace_location_is_last_index_witness :
  let r := request PUT "0" [("content", "buy oat milk"); ("done", "true")] in
  let todoItems := [buy_milk; walk_dog; pay_rent] in
  strconv.Atoi (PathValue r "id") = (0, None) /\ 0 <= 0 < len todoItems /\
  ParseForm r = false /\ strconv.ParseBool (FormValue r "done") = (true, None) /\
  exists todoItems' w,
    replaceTodoItem (newResponse r) r todoItems = Some (todoItems', w)
    /\ status w = 200
    /\ header w !! "Location" = Some [sprintf_location (URLHost r) (len todoItems' - 1)]
    /\ (exists created wc,
          createTodoItem (newResponse r) r todoItems = Some (created, wc)
          /\ header wc !! "Location" = Some [sprintf_location (URLHost r) (len created - 1)])
    /\ (0 <> len todoItems' - 1 ->
        Header_Get w "Location" <> sprintf_location (URLHost r) 0).
Proof.
  intros r todoItems.
  assert (Hid : strconv.Atoi (PathValue r "id") = (0, None)) by (vm_compute; reflexivity).
  assert (Hin : 0 <= 0 < len todoItems) by (vm_compute; split; [discriminate | reflexivity]).
  assert (Hform : ParseForm r = false) by reflexivity.
  assert (Hdone : strconv.ParseBool (FormValue r "done") = (true, None))
    by (vm_compute; reflexivity).
  repeat (split; [assumption |]).
  exact (C3_replace_location_is_last_index r todoItems 0 true Hid Hin Hform Hdone).
Defined.

Example replace_first_of_three_location :
  let r := request PUT "0" [("content", "buy oat milk"); ("done", "true")] in
  (fun p => Header_Get p.2 "Location") <$> replaceTodoItem (newResponse r) r [buy_milk; walk_dog; pay_rent]
  = Some "/todo-item/2".
Proof. vm_compute. reflexivity. Qed.

(** ** GET /todo-item/{id} and POST /todo-item *)

Lemma append_newline_nonempty (json : string) : json +:+ newline <> "".
Proof. destruct json; discriminate. Qed.

(** A value encoded into a fresh response of a request that is not a
    HEAD request: status 200 and the encoding, a newline after it. *)
Lemma Encode_fresh (r : Request) (json : string) :
  is_HEAD (Method r) = false ->
  let w := Encode (newResponse r) json in
  status w = 200 /\ body w = json +:+ newline /\ wroteHeader w = true.
Proof.
  intros Hm. cbn zeta. unfold Encode, Write. cbn.
  pose proof (append_newline_nonempty json) as Hne.
  destruct (json +:+ newline) as [| c rest]; [done |].
  rewrite Hm. cbn. done.
Qed.

Lemma getTodoItem_in_range (jsonString : string -> string) (w : ResponseWriter)
      (r : Request) (todoItems : list TodoItem) (id : Z) (item : TodoItem) :
  strconv.Atoi (PathValue r "id") = (id, None) ->
  index todoItems id = Some item ->
  getTodoItem jsonString w r todoItems
  = Some (todoItems, Encode w (marshalTodoItem jsonString item)).
Proof.
  intros Hid Hitem. unfold getTodoItem.
  rewrite Hid, guard_in_range by (by apply index_Some_range in Hitem).
  by rewrite Hitem.
Qed.

Lemma index_snoc {A} (s : list A) (x : A) : index (s ++ [x]) (len s) = Some x.
Proof.
  rewrite index_in_range by (rewrite len_app; unfold len; cbn; lia).
  unfold len. rewrite Nat2Z.id. rewrite lookup_app_r by lia.
  by rewrite Nat.sub_diag.
Qed.

(** C4: Create appends the item at the index that was the length of
    the collection, answers 201 with a [Location] header built from
    that index, and a Read at that index then returns the encoding of
    the very pair that was sent. *)
Theorem C4_create_then_read (jsonString : string -> string) (r r' : Request)
        (todoItems : list TodoItem) (done : bool) :
  ParseForm r = false ->
  strconv.ParseBool (FormValue r "done") = (done, None) ->
  Method r' = GET ->
  strconv.Atoi (PathValue r' "id") = (len todoItems, None) ->
  let item := {| Content := FormValue r "content"; Done := done |} in
  exists w w',
    createTodoItem (newResponse r) r todoItems = Some (todoItems ++ [item], w)
    /\ index (todoItems ++ [item]) (len todoItems) = Some item
    /\ status w = 201
    /\ header w !! "Location" = Some [sprintf_location (URLHost r) (len todoItems)]
    /\ getTodoItem jsonString (newResponse r') r' (todoItems ++ [item])
       = Some (todoItems ++ [item], w')
    /\ status w' = 200
    /\ body w' = marshalTodoItem jsonString item +:+ newline.
Proof.
  intros Hform Hdone Hget Hid item.
  rewrite (createTodoItem_valid _ _ _ _ Hform Hdone).
  rewrite (getTodoItem_in_range jsonString _ _ _ _ item Hid (index_snoc _ _)).
  do 2 eexists. split; [reflexivity |]. split; [apply index_snoc |].
  destruct (Location_added r (sprintf_location (URLHost r) (len todoItems)) StatusCreated)
    as (Hh & _ & Hs & _).
  split; [exact Hs |]. split; [exact Hh |]. split; [reflexivity |].
  destruct (Encode_fresh r' (marshalTodoItem jsonString item)) as (Hs' & Hb' & _);
    [by rewrite Hget |].
  done.
Qed.

Lemma C4_create_then_read_witness :
  let r := request POST "" [("content", "buy milk"); ("done", "false")] in
  let r' := request GET "0" [] in
  let item := {| Content := FormValue r "content"; Done := false |} in
  ParseForm r = false /\ strconv.ParseBool (FormValue r "done") = (false, None) /\
  Method r' = GET /\ strconv.Atoi (PathValue r' "id") = (len (@nil TodoItem), None) /\
  exists w w',
    createTodoItem (newResponse r) r [] = Some ([] ++ [item], w)
    /\ index ([] ++ [item]) (len (@nil TodoItem)) = Some item
    /\ status w = 201
    /\ header w !! "Location" = Some [sprintf_location (URLHost r) (len (@nil TodoItem))]
    /\ getTodoItem jsonQuote (newResponse r') r' ([] ++ [item]) = Some ([] ++ [item], w')
    /\ status w' = 200
    /\ body w' = marshalTodoItem jsonQuote item +:+ newline.
Proof.
  intros r r' item.
  assert (Hform : ParseForm r = false) by reflexivity.
  assert (Hdone : strconv.ParseBool (FormValue r "done") = (false, None))
    by (vm_compute; reflexivity).
  assert (Hget : Method r' = GET) by reflexivity.
  assert (Hid : strconv.Atoi (PathValue r' "id") = (len (@nil TodoItem), None))
    by (vm_compute; reflexivity).
  repeat (split; [assumption |]).
  exact (C4_create_then_read jsonQuote r r' [] false Hform Hdone Hget Hid).
Defined.

(** The index text of the [Location] header is itself an id that reads
    back as that index. *)
Lemma Location_index_parses (todoItems : list TodoItem) :
  len todoItems < 2 ^ 63 ->
  strconv.Atoi (strconv.FormatInt (len todoItems)) = (len todoItems, None).
Proof. intros H. apply strconv_facts.Atoi_FormatInt. unfold len in *. lia. Qed.

Example create_then_read_body :
  let r := request POST "" [("content", "buy milk"); ("done", "false")] in
  let r' := request GET "0" [] in
  (p ← createTodoItem (newResponse r) r [];
   q ← getTodoItem jsonQuote (newResponse r') r' p.1;
   Some (Header_Get p.2 "Location", body q.2))
  = Some ("/todo-item/0",
          "{" +:+ dquote +:+ "Content" +:+ dquote +:+ ":" +:+ dquote +:+ "buy milk" +:+ dquote
          +:+ "," +:+ dquote +:+ "Done" +:+ dquote +:+ ":false}" +:+ newline).
Proof. vm_compute. reflexivity. Qed.

(** ** The id checks shared by the [{id}] routes *)

Section IdChecks.
Variable jsonString : string -> string.

Lemma id_route_not_found (rt : Route) (w : ResponseWriter) (r : Request)
      (todoItems : list TodoItem) (i : Z) :
  has_id rt = true ->
  strconv.Atoi (PathValue r "id") = (i, None) ->
  i < 0 \/ len todoItems <= i ->
  router jsonString rt w r todoItems
  = Some (todoItems, Write (WriteHeader w StatusNotFound) err_id_missing).
Proof.
  intros Hrt Hid Hout.
  destruct rt; try discriminate; cbn [router];
    unfold getTodoItem, getTodoItemExists, replaceTodoItem, updateTodoItem, deleteTodoItem;
    rewrite Hid, guard_out_of_range by done; reflexivity.
Qed.

Lemma id_route_bad_request (rt : Route) (w : ResponseWriter) (r : Request)
      (todoItems : list TodoItem) (e : strconv.NumError) :
  has_id rt = true ->
  snd (strconv.Atoi (PathValue r "id")) = Some e ->
  router jsonString rt w r todoItems
  = Some (todoItems, Write (WriteHeader w StatusBadRequest) err_id_type).
Proof.
  intros Hrt Herr.
  destruct rt; try discriminate; cbn [router];
    unfold getTodoItem, getTodoItemExists, replaceTodoItem, updateTodoItem, deleteTodoItem;
    destruct (strconv.Atoi (PathValue r "id")) as [id err]; cbn in Herr; subst err;
    reflexivity.
Qed.

(** Among the [{id}] routes only the HEAD route serves HEAD requests. *)
Lemma id_route_head (rt : Route) (m : method) :
  has_id rt = true -> accepts rt m = true ->
  is_HEAD m = match rt with HEAD_todo_item_id => true | _ => false end.
Proof. destruct rt, m; cbn; congruence. Qed.

Lemma ServeHTTP_error (rt : Route) (r : Request) (todoItems : list TodoItem)
      (code : Z) (msg : string) :
  has_id rt = true -> accepts rt (Method r) = true ->
  bodyAllowedForStatus code = true -> msg <> "" ->
  router jsonString rt (newResponse r) r todoItems
  = Some (todoItems, Write (WriteHeader (newResponse r) code) msg) ->
  exists w,
    ServeHTTP jsonString rt r todoItems = Some (todoItems, w)
    /\ status w = code
    /\ body w = match rt with HEAD_todo_item_id => "" | _ => msg end.
Proof.
  intros Hrt Hacc Hcode Hmsg Hrun. unfold ServeHTTP. rewrite Hrun. cbn [mbind option_bind].
  destruct (error_response r code msg Hcode Hmsg) as (Hs & Hb & _ & Hw).
  eexists. split; [reflexivity |]. unfold finishRequest. rewrite Hw.
  split; [exact Hs |]. rewrite Hb, (id_route_head rt (Method r) Hrt Hacc).
  by destruct rt.
Qed.

(** An id outside the collection is answered 404 on every [{id}]
    route, whatever the collection is. *)
Lemma out_of_range_not_found (rt : Route) (r : Request) (todoItems : list TodoItem) (i : Z) :
  has_id rt = true -> accepts rt (Method r) = true ->
  strconv.Atoi (PathValue r "id") = (i, None) ->
  i < 0 \/ len todoItems <= i ->
  exists w,
    ServeHTTP jsonString rt r todoItems = Some (todoItems, w)
    /\ status w = 404
    /\ body w = match rt with HEAD_todo_item_id => "" | _ => err_id_missing end.
Proof.
  intros Hrt Hacc Hid Hout.
  apply ServeHTTP_error; [done.. |]. by eapply id_route_not_found.
Qed.

End IdChecks.

(** C7: whatever requests were served before, and also on the empty
    collection, Read, the existence check, Update and Delete answer an
    integer id below 0 or at or beyond the length with 404; Read, Update
    and Delete send the body [`id` not found], the existence check sends
    none. *)
Theorem C7_out_of_range_is_not_found (jsonString : string -> string)
        (todoItems : list TodoItem) (rt : Route) (r : Request) (i : Z) :
  reachable jsonString todoItems ->
  In rt [GET_todo_item_id; HEAD_todo_item_id; PATCH_todo_item_id; DELETE_todo_item_id] ->
  accepts rt (Method r) = true ->
  strconv.Atoi (PathValue r "id") = (i, None) ->
  i < 0 \/ len todoItems <= i ->
  exists w,
    ServeHTTP jsonString rt r todoItems = Some (todoItems, w)
    /\ status w = 404
    /\ body w = match rt with HEAD_todo_item_id => "" | _ => err_id_missing end.
Proof.
  intros _ Hrt Hacc Hid Hout.
  apply out_of_range_not_found with (i := i); [| done..].
  cbn in Hrt. by destruct Hrt as [<- | [<- | [<- | [<- | []]]]].
Qed.

(** The collection after one POST and one DELETE is reachable, and empty. *)
Lemma reachable_after_create_delete : reachable jsonQuote [].
Proof.
  eapply (reachable_serve jsonQuote DELETE_todo_item_id (request DELETE "0" []) [buy_milk]);
    [| reflexivity | vm_compute; reflexivity].
  eapply (reachable_serve jsonQuote POST_todo_item
            (request POST "" [("content", "buy milk"); ("done", "false")]) []);
    [apply reachable_start | reflexivity | vm_compute; reflexivity].
Defined.

Lemma C7_out_of_range_is_not_found_witness :
  let r := request GET "0" [] in
  reachable jsonQuote [] /\
  In GET_todo_item_id
     [GET_todo_item_id; HEAD_todo_item_id; PATCH_todo_item_id; DELETE_todo_item_id] /\
  accepts GET_todo_item_id (Method r) = true /\
  strconv.Atoi (PathValue r "id") = (0, None) /\
  (0 < 0 \/ len (@nil TodoItem) <= 0) /\
  exists w,
    ServeHTTP jsonQuote GET_todo_item_id r [] = Some ([], w)
    /\ status w = 404
    /\ body w = err_id_missing.
Proof.
  intros r.
  assert (Hreach : reachable jsonQuote []) by exact reachable_after_create_delete.
  assert (Hrt : In GET_todo_item_id
                   [GET_todo_item_id; HEAD_todo_item_id; PATCH_todo_item_id; DELETE_todo_item_id])
    by (left; reflexivity).
  assert (Hacc : accepts GET_todo_item_id (Method r) = true) by reflexivity.
  assert (Hid : strconv.Atoi (PathValue r "id") = (0, None)) by (vm_compute; reflexivity).
  assert (Hout : 0 < 0 \/ len (@nil TodoItem) <= 0) by (right; vm_compute; discriminate).
  repeat (split; [assumption |]).
  exact (C7_out_of_range_is_not_found jsonQuote [] GET_todo_item_id r 0 Hreach Hrt Hacc Hid Hout).
Defined.

(** ** Ids that are not integers *)

(** C8, as the code has it: an id that [strconv.Atoi] rejects is
    answered 400 on every [{id}] route, before the bounds check and with
    the collection untouched; the body is [`id` must be of type int],
    except on the HEAD route, which sends none.  A negative integer is
    not rejected. *)
Theorem C8_rejected_id_is_bad_request (jsonString : string -> string)
        (rt : Route) (r : Request) (todoItems : list TodoItem) (e : strconv.NumError) :
  has_id rt = true ->
  accepts rt (Method r) = true ->
  snd (strconv.Atoi (PathValue r "id")) = Some e ->
  exists w,
    ServeHTTP jsonString rt r todoItems = Some (todoItems, w)
    /\ status w = 400
    /\ body w = match rt with HEAD_todo_item_id => "" | _ => err_id_type end.
Proof.
  intros Hrt Hacc Herr.
  apply ServeHTTP_error; [done.. |]. by eapply id_route_bad_request.
Qed.

Lemma C8_rejected_id_is_bad_request_witness :
  let r := request GET "abc" [] in
  has_id GET_todo_item_id = true /\
  accepts GET_todo_item_id (Method r) = true /\
  snd (strconv.Atoi (PathValue r "id")) = Some strconv.ErrSyntax /\
  exists w,
    ServeHTTP jsonQuote GET_todo_item_id r [buy_milk] = Some ([buy_milk], w)
    /\ status w = 400
    /\ body w = err_id_type.
Proof.
  intros r.
  assert (Hrt : has_id GET_todo_item_id = true) by reflexivity.
  assert (Hacc : accepts GET_todo_item_id (Method r) = true) by reflexivity.
  assert (Herr : snd (strconv.Atoi (PathValue r "id")) = Some strconv.ErrSyntax)
    by (vm_compute; reflexivity).
  repeat (split; [assumption |]).
  exact (C8_rejected_id_is_bad_request jsonQuote GET_todo_item_id r [buy_milk]
           strconv.ErrSyntax Hrt Hacc Herr).
Defined.

(** The id [-1] is not a non-negative integer, and the answer to it is
    404 with [`id` not found], not 400. *)
Lemma C8_negative_id_is_not_found :
  let r := request GET "-1" [] in
  ~ (exists n, 0 <= n /\ strconv.Atoi (PathValue r "id") = (n, None))
  /\ exists w,
       ServeHTTP jsonQuote GET_todo_item_id r [buy_milk] = Some ([buy_milk], w)
       /\ status w = 404
       /\ status w <> 400
       /\ body w = err_id_missing.
Proof.
  intros r. split.
  - intros (n & Hn & Hparse). vm_compute in Hparse. injection Hparse as <-. lia.
  - eexists. split; [vm_compute; reflexivity |]. cbn. repeat split; discriminate.
Qed.

(** Every negative value of Go's [int], written as [%d] writes it, is an
    id that parses: it is answered by the bounds check. *)
Lemma negative_id_not_found (jsonString : string -> string) (rt : Route) (r : Request)
      (todoItems : list TodoItem) (i : Z) :
  has_id rt = true -> accepts rt (Method r) = true ->
  - 2 ^ 63 <= i < 0 ->
  PathValue r "id" = strconv.FormatInt i ->
  exists w,
    ServeHTTP jsonString rt r todoItems = Some (todoItems, w) /\ status w = 404.
Proof.
  intros Hrt Hacc Hi Hpath.
  destruct (out_of_range_not_found jsonString rt r todoItems i Hrt Hacc) as (w & Hrun & Hs & _).
  - rewrite Hpath. apply strconv_facts.Atoi_FormatInt. lia.
  - lia.
  - eauto.
Qed.

(** ** PATCH /todo-item/{id} *)

Lemma FormValue_omitted (r : Request) (key : string) :
  Form r !! key = None -> FormValue r key = "".
Proof. intros H. unfold FormValue. by rewrite H. Qed.

Lemma store_Content_in_range (s : list TodoItem) (i : Z) (item : TodoItem) (content : string) :
  index s i = Some item ->
  store_Content s i content
  = Some (<[Z.to_nat i := {| Content := content; Done := Done item |}]> s).
Proof.
  intros H. unfold store_Content. rewrite H. cbn.
  apply store_in_range. by apply index_Some_range in H.
Qed.

Lemma store_Done_in_range (s : list TodoItem) (i : Z) (item : TodoItem) (done : bool) :
  index s i = Some item ->
  store_Done s i done
  = Some (<[Z.to_nat i := {| Content := Content item; Done := done |}]> s).
Proof.
  intros H. unfold store_Done. rewrite H. cbn.
  apply store_in_range. by apply index_Some_range in H.
Qed.

(** Update on a valid id with a form that parsed, spelled out: the
    [content] step is done by the time [done] is looked at. *)
Lemma updateTodoItem_valid (w : ResponseWriter) (r : Request) (todoItems : list TodoItem)
      (id : Z) (item : TodoItem) :
  strconv.Atoi (PathValue r "id") = (id, None) ->
  index todoItems id = Some item ->
  ParseForm r = false ->
  exists todoItems1,
    index todoItems1 id = Some (after_content r item)
    /\ len todoItems1 = len todoItems
    /\ (forall j, j <> id -> index todoItems1 j = index todoItems j)
    /\ updateTodoItem w r todoItems
       = if negb (String.eqb (FormValue r "done") "") then
           match strconv.ParseBool (FormValue r "done") with
           | (_, Some _) =>
               Some (todoItems1, Write (WriteHeader w StatusBadRequest) err_done_type)
           | (done, None) =>
               Some (<[Z.to_nat id := {| Content := Content (after_content r item);
                                         Done := done |}]> todoItems1,
                     WriteHeader w StatusOK)
           end
         else Some (todoItems1, WriteHeader w StatusOK).
Proof.
  intros Hid Hitem Hform.
  pose proof (index_Some_range _ _ _ Hitem) as Hin.
  unfold updateTodoItem, after_content.
  rewrite Hid, guard_in_range, Hform by done.
  destruct (negb (String.eqb (FormValue r "content") "")).
  - rewrite (store_Content_in_range _ _ _ _ Hitem). cbn [mbind option_bind].
    eexists. split; [by apply index_store_eq |]. split; [apply len_insert |].
    split; [intros j Hj; apply index_store_ne; lia |].
    destruct (negb (String.eqb (FormValue r "done") "")); [| done].
    destruct (strconv.ParseBool (FormValue r "done")) as [dn [e |]]; [done |].
    by rewrite (store_Done_in_range _ _ _ _ (index_store_eq _ _ _ Hin)).
  - cbn [mbind option_bind]. exists todoItems. split; [done |]. split; [done |].
    split; [done |].
    destruct (negb (String.eqb (FormValue r "done") "")); [| done].
    destruct (strconv.ParseBool (FormValue r "done")) as [dn [e |]]; [done |].
    by rewrite (store_Done_in_range _ _ _ _ Hitem).
Qed.

Lemma updateTodoItem_invalid_form (w : ResponseWriter) (r : Request)
      (todoItems : list TodoItem) (id : Z) :
  strconv.Atoi (PathValue r "id") = (id, None) ->
  0 <= id < len todoItems ->
  ParseForm r = true ->
  updateTodoItem w r todoItems
  = Some (todoItems, Write (WriteHeader w StatusBadRequest) err_form).
Proof.
  intros Hid Hin Hform. unfold updateTodoItem.
  by rewrite Hid, guard_in_range, Hform.
Qed.

Lemma eqb_empty_true (s : string) : s = "" -> negb (String.eqb s "") = false.
Proof. by intros ->. Qed.

Lemma eqb_empty_false (s : string) : s <> "" -> negb (String.eqb s "") = true.
Proof. intros H. destruct (String.eqb_spec s ""); done. Qed.

(** C6: an Update on an item at a valid index leaves a field as it was
    when the request omits it or sends it empty.  With only [done=true]
    the content stays and the item is done; with only a non-empty
    [content] the done flag stays and the content is the one sent. *)
Theorem C6_update_keeps_absent_fields (r : Request) (todoItems : list TodoItem)
        (id : Z) (item : TodoItem) :
  strconv.Atoi (PathValue r "id") = (id, None) ->
  index todoItems id = Some item ->
  exists todoItems' w item',
    updateTodoItem (newResponse r) r todoItems = Some (todoItems', w)
    /\ index todoItems' id = Some item'
    /\ (Form r !! "content" = None \/ FormValue r "content" = "" ->
        Content item' = Content item)
    /\ (Form r !! "done" = None \/ FormValue r "done" = "" ->
        Done item' = Done item)
    /\ (ParseForm r = false ->
        Form r !! "content" = None \/ FormValue r "content" = "" ->
        FormValue r "done" = "true" ->
        status w = 200 /\ item' = {| Content := Content item; Done := true |})
    /\ (ParseForm r = false ->
        FormValue r "content" <> "" ->
        Form r !! "done" = None \/ FormValue r "done" = "" ->
        status w = 200
        /\ item' = {| Content := FormValue r "content"; Done := Done item |}).
Proof.
  intros Hid Hitem.
  pose proof (index_Some_range _ _ _ Hitem) as Hin.
  assert (Habsent : forall key,
             Form r !! key = None \/ FormValue r key = "" -> FormValue r key = "").
  { intros key [H | H]; [by apply FormValue_omitted | done]. }
  destruct (ParseForm r) eqn:Hform.
  { rewrite (updateTodoItem_invalid_form _ _ _ _ Hid Hin Hform).
    exists todoItems, (Write (WriteHeader (newResponse r) StatusBadRequest) err_form), item.
    repeat split; done. }
  destruct (updateTodoItem_valid (newResponse r) r todoItems id item Hid Hitem Hform)
    as (items1 & Hat & Hlen & _ & ->).
  assert (Hin1 : 0 <= id < len items1) by lia.
  unfold after_content in *.
  destruct (negb (String.eqb (FormValue r "done") "")) eqn:Hd.
  - destruct (strconv.ParseBool (FormValue r "done")) as [dn [e |]] eqn:Hpb.
    + do 3 eexists. split; [reflexivity |]. split; [exact Hat |].
      split; [| split; [| split]].
      * intros H%Habsent. by rewrite (eqb_empty_true _ H).
      * intros H%Habsent. by rewrite (eqb_empty_true _ H) in Hd.
      * intros _ _ Htrue. rewrite Htrue in Hpb. discriminate.
      * intros _ _ H%Habsent. by rewrite (eqb_empty_true _ H) in Hd.
    + do 3 eexists. split; [reflexivity |]. split; [by apply index_store_eq |].
      split; [| split; [| split]].
      * intros H%Habsent. by rewrite (eqb_empty_true _ H).
      * intros H%Habsent. by rewrite (eqb_empty_true _ H) in Hd.
      * intros _ H%Habsent Htrue. rewrite Htrue in Hpb. injection Hpb as <-.
        by rewrite (eqb_empty_true _ H).
      * intros _ _ H%Habsent. by rewrite (eqb_empty_true _ H) in Hd.
  - do 3 eexists. split; [reflexivity |]. split; [exact Hat |].
    split; [| split; [| split]].
    + intros H%Habsent. by rewrite (eqb_empty_true _ H).
    + intros _. by destruct (negb _).
    + intros _ _ Htrue. rewrite Htrue in Hd. discriminate.
    + intros _ Hc _. by rewrite (eqb_empty_false _ Hc).
Qed.

Lemma C6_update_keeps_absent_fields_witness :
  let r := request PATCH "0" [("done", "true")] in
  strconv.Atoi (PathValue r "id") = (0, None) /\
  index [buy_milk] 0 = Some buy_milk /\
  exists todoItems' w item',
    updateTodoItem (newResponse r) r [buy_milk] = Some (todoItems', w)
    /\ index todoItems' 0 = Some item'
    /\ (Form r !! "content" = None \/ FormValue r "content" = "" ->
        Content item' = Content buy_milk)
    /\ (Form r !! "done" = None \/ FormValue r "done" = "" ->
        Done item' = Done buy_milk)
    /\ (ParseForm r = false ->
        Form r !! "content" = None \/ FormValue r "content" = "" ->
        FormValue r "done" = "true" ->
        status w = 200 /\ item' = {| Content := Content buy_milk; Done := true |})
    /\ (ParseForm r = false ->
        FormValue r "content" <> "" ->
        Form r !! "done" = None \/ FormValue r "done" = "" ->
        status w = 200
        /\ item' = {| Content := FormValue r "content"; Done := Done buy_milk |}).
Proof.
  intros r.
  assert (Hid : strconv.Atoi (PathValue r "id") = (0, None)) by (vm_compute; reflexivity).
  assert (Hitem : index [buy_milk] 0 = Some buy_milk) by reflexivity.
  repeat (split; [assumption |]).
  exact (C6_update_keeps_absent_fields r [buy_milk] 0 buy_milk Hid Hitem).
Defined.

Example update_done_only :
  let r := request PATCH "0" [("done", "true")] in
  fst <$> updateTodoItem (newResponse r) r [buy_milk]
  = Some [{| Content := "buy milk"; Done := true |}].
Proof. vm_compute. reflexivity. Qed.

Example update_content_only :
  let r := request PATCH "1" [("content", "walk the cat")] in
  fst <$> updateTodoItem (newResponse r) r [buy_milk; walk_dog]
  = Some [buy_milk; {| Content := "walk the cat"; Done := true |}].
Proof. vm_compute. reflexivity. Qed.

(** ** Validation failures and the collection *)

Lemma status_Write_fresh (r : Request) (data : string) :
  status (Write (newResponse r) data) = 200.
Proof.
  unfold Write. cbn. destruct data; [done |]. cbn. by destruct (is_HEAD (Method r)).
Qed.

Lemma status_error_fresh (r : Request) (code : Z) (msg : string) :
  status (Write (WriteHeader (newResponse r) code) msg) = code.
Proof.
  unfold Write. cbn. destruct msg; [done |].
  destruct (negb (bodyAllowedForStatus code)); [done |].
  by destruct (is_HEAD (Method r)).
Qed.

(** On every route but Update a 4xx answer leaves the collection as it
    was. *)
Lemma failure_keeps_collection (jsonString : string -> string) (rt : Route) (r : Request)
      (todoItems todoItems' : list TodoItem) (w : ResponseWriter) :
  rt <> PATCH_todo_item_id ->
  router jsonString rt (newResponse r) r todoItems = Some (todoItems', w) ->
  400 <= status w ->
  todoItems' = todoItems.
Proof.
  intros Hrt Hrun Hst.
  destruct rt; [| | | | | done |]; cbn [router] in Hrun.
  - unfold getTodoItems in Hrun. by injection Hrun as <- _.
  - unfold getTodoItem in Hrun.
    destruct (strconv.Atoi _) as [id [e |]]; [by injection Hrun as <- _ |].
    destruct (_ || _); [by injection Hrun as <- _ |].
    destruct (index todoItems id); [| done]. by injection Hrun as <- _.
  - unfold getTodoItemExists in Hrun.
    destruct (strconv.Atoi _) as [id [e |]]; [by injection Hrun as <- _ |].
    destruct (_ || _); by injection Hrun as <- _.
  - unfold createTodoItem in Hrun.
    destruct (ParseForm r); [by injection Hrun as <- _ |].
    destruct (strconv.ParseBool _) as [dn [e |]]; [by injection Hrun as <- _ |].
    injection Hrun as _ <-. cbn in Hst. unfold StatusOK, StatusCreated in Hst. lia.
  - unfold replaceTodoItem in Hrun.
    destruct (strconv.Atoi _) as [id [e |]]; [by injection Hrun as <- _ |].
    destruct (_ || _); [by injection Hrun as <- _ |].
    destruct (ParseForm r); [by injection Hrun as <- _ |].
    destruct (strconv.ParseBool _) as [dn [e |]]; [by injection Hrun as <- _ |].
    destruct (store todoItems id _); [| done].
    injection Hrun as _ <-. cbn in Hst. unfold StatusOK, StatusCreated in Hst. lia.
  - unfold deleteTodoItem in Hrun.
    destruct (strconv.Atoi _) as [id [e |]]; [by injection Hrun as <- _ |].
    destruct (_ || _); [by injection Hrun as <- _ |].
    destruct (slice_to todoItems id); [| done].
    destruct (slice_from todoItems (id + 1)); [| done].
    injection Hrun as _ <-. cbn in Hst. unfold StatusOK, StatusCreated in Hst. lia.
Qed.


(** C1, at the request that breaks it: PATCH /todo-item/0 with
    [content=buy eggs] and [done=maybe] on the collection holding
    "buy milk".  The answer is 400 for the malformed [done], and the
    item's [Content] has already been overwritten. *)
Theorem C1_update_bad_done_overwrites_content :
  let r := request PATCH "0" [("content", "buy eggs"); ("done", "maybe")] in
  exists w,
    updateTodoItem (newResponse r) r [buy_milk]
    = Some ([{| Content := "buy eggs"; Done := false |}], w)
    /\ status w = 400
    /\ body w = err_done_type
    /\ [{| Content := "buy eggs"; Done := false |}] <> [buy_milk].
Proof.
  intros r. eexists. split; [vm_compute; reflexivity |].
  cbn. repeat split. discriminate.
Qed.

(** The same on any collection: a non-empty [content] sent with a
    malformed [done] to a valid id is stored, and the answer is 400. *)
Lemma update_bad_done_stores_content (r : Request) (todoItems : list TodoItem)
      (id : Z) (item : TodoItem) (e : strconv.NumError) :
  strconv.Atoi (PathValue r "id") = (id, None) ->
  index todoItems id = Some item ->
  ParseForm r = false ->
  FormValue r "content" <> "" ->
  FormValue r "done" <> "" ->
  snd (strconv.ParseBool (FormValue r "done")) = Some e ->
  exists todoItems' w,
    updateTodoItem (newResponse r) r todoItems = Some (todoItems', w)
    /\ status w = 400
    /\ index todoItems' id = Some {| Content := FormValue r "content"; Done := Done item |}.
Proof.
  intros Hid Hitem Hform Hc Hd Hbad.
  destruct (updateTodoItem_valid (newResponse r) r todoItems id item Hid Hitem Hform)
    as (items1 & Hat & _ & _ & ->).
  unfold after_content in Hat. rewrite (eqb_empty_false _ Hc) in Hat.
  rewrite (eqb_empty_false _ Hd).
  destruct (strconv.ParseBool (FormValue r "done")) as [dn [e' |]]; [| done].
  do 2 eexists. split; [reflexivity |]. split; [apply status_error_fresh | exact Hat].
Qed.

(** ** No handler panics *)

Lemma handlers_do_not_panic (jsonString : string -> string) (rt : Route)
      (w : ResponseWriter) (r : Request) (todoItems : list TodoItem) :
  is_Some (router jsonString rt w r todoItems).
Proof.
  destruct rt; cbn [router].
  - done.
  - unfold getTodoItem. destruct (strconv.Atoi _) as [id [e |]]; [done |].
    destruct (Z.ltb_spec id 0); [done |].
    destruct (Z.ltb_spec (len todoItems - 1) id); [done |]. cbn [orb].
    destruct (index_is_Some todoItems id) as [x ->]; [lia | done].
  - unfold getTodoItemExists. destruct (strconv.Atoi _) as [id [e |]]; [done |].
    by destruct (_ || _).
  - unfold createTodoItem. destruct (ParseForm r); [done |].
    by destruct (strconv.ParseBool _) as [dn [e |]].
  - unfold replaceTodoItem. destruct (strconv.Atoi _) as [id [e |]]; [done |].
    destruct (Z.ltb_spec id 0); [done |].
    destruct (Z.ltb_spec (len todoItems - 1) id); [done |]. cbn [orb].
    destruct (ParseForm r); [done |].
    destruct (strconv.ParseBool _) as [dn [e |]]; [done |].
    by rewrite store_in_range by lia.
  - destruct (strconv.Atoi (PathValue r "id")) as [id err] eqn:Hid.
    destruct err as [e |]; [unfold updateTodoItem; by rewrite Hid |].
    destruct (Z.ltb_spec id 0) as [Hlt | Hge];
      [unfold updateTodoItem; rewrite Hid, guard_out_of_range by lia; done |].
    destruct (Z.ltb_spec (len todoItems - 1) id) as [Hlt | Hle];
      [unfold updateTodoItem; rewrite Hid, guard_out_of_range by lia; done |].
    destruct (ParseForm r) eqn:Hform;
      [rewrite (updateTodoItem_invalid_form _ _ _ _ Hid) by (done || lia); done |].
    destruct (index_is_Some todoItems id) as [item Hitem]; [lia |].
    destruct (updateTodoItem_valid w r todoItems id item Hid Hitem Hform)
      as (items1 & _ & _ & _ & ->).
    destruct (negb _); [| done].
    by destruct (strconv.ParseBool _) as [dn [e |]].
  - unfold deleteTodoItem. destruct (strconv.Atoi _) as [id [e |]]; [done |].
    destruct (Z.ltb_spec id 0); [done |].
    destruct (Z.ltb_spec (len todoItems - 1) id); [done |]. cbn [orb].
    destruct (delete_slices todoItems id) as [-> ->]; [lia | done].
Qed.

(** ** A session *)

(** POST, GET, PATCH, GET, DELETE, GET on the empty collection: the
    statuses, the bodies read, and the empty collection at the end. *)
Example session_from_empty :
  let post := request POST "" [("content", "buy milk"); ("done", "false")] in
  let get := request GET "0" [] in
  let patch := request PATCH "0" [("done", "true")] in
  let delete := request DELETE "0" [] in
  let item (done : string) :=
    "{" +:+ dquote +:+ "Content" +:+ dquote +:+ ":" +:+ dquote +:+ "buy milk" +:+ dquote
    +:+ "," +:+ dquote +:+ "Done" +:+ dquote +:+ ":" +:+ done +:+ "}" +:+ newline in
  (a ← ServeHTTP jsonQuote POST_todo_item post [];
   b ← ServeHTTP jsonQuote GET_todo_item_id get a.1;
   c ← ServeHTTP jsonQuote PATCH_todo_item_id patch b.1;
   d ← ServeHTTP jsonQuote GET_todo_item_id get c.1;
   e ← ServeHTTP jsonQuote DELETE_todo_item_id delete d.1;
   f ← ServeHTTP jsonQuote GET_todo_item_id get e.1;
   Some ([(status a.2, Header_Get a.2 "Location"); (status b.2, body b.2);
          (status c.2, body c.2); (status d.2, body d.2);
          (status e.2, body e.2); (status f.2, body f.2)], f.1))
  = Some ([(201, "/todo-item/0"); (200, item "false"); (200, "");
           (200, item "true"); (200, ""); (404, err_id_missing)], []).
Proof. vm_compute. reflexivity. Qed.

Example list_of_empty :
  (fun p => body p.2) <$> ServeHTTP jsonQuote GET_todo_item (request GET "" []) []
  = Some ("[]" +:+ newline).
Proof. vm_compute. reflexivity. Qed.

(** ** The listener's error and the panic guard *)

Module lifecycle_facts.
Import lifecycle.

(** The shutdown-induced result of the listener is not an error:
    the goroutine returns and the process goes on. *)
Lemma server_closed_is_not_fatal :
  listener_goroutine (Some ErrServerClosed) = Continues
  /\ listener_goroutine None = Continues.
Proof. split; reflexivity. Qed.

(** Any other error makes the listener goroutine panic. *)
Lemma other_error_panics (msg : string) :
  listen (Some (OtherError msg)) = Panics msg.
Proof. reflexivity. Qed.

(** A panic in [main] itself reaches the guard: the line of
    [recoverer] and exit status 1. *)
Lemma main_panic_is_recovered (msg : string) :
  main_shutdown (Some (OtherError msg)) = Exits 1 (RecovererLine msg).
Proof. reflexivity. Qed.

(** The same for every error: the listener's panic unwinds its own
    goroutine, which has deferred nothing. *)
Lemma listener_panic_is_not_recovered (msg : string) :
  listener_goroutine (Some (OtherError msg)) = Exits 2 (RuntimeTraceback msg).
Proof. reflexivity. Qed.

End lifecycle_facts.

(** C9, at a listener error that is not the shutdown one (the port is
    taken): the goroutine of the listener panics, the guard deferred in
    [main] is not among its deferred calls, and the process ends with
    the runtime's report and status 2, where the guard would have
    printed its own line and exited with status 1. *)
Theorem C9_listener_panic_escapes_guard :
  let err := Some (lifecycle.OtherError "listen tcp :8080: bind: address already in use") in
  lifecycle.listener_goroutine err
  = lifecycle.Exits 2
      (lifecycle.RuntimeTraceback "listen tcp :8080: bind: address already in use")
  /\ lifecycle.listener_goroutine err
     <> lifecycle.Exits 1
          (lifecycle.RecovererLine "listen tcp :8080: bind: address already in use")
  /\ lifecycle.main_shutdown err
     = lifecycle.Exits 1
         (lifecycle.RecovererLine "listen tcp :8080: bind: address already in use")
  /\ lifecycle.listener_goroutine (Some lifecycle.ErrServerClosed) = lifecycle.Continues.
Proof.
  intros err. split; [reflexivity |]. split; [discriminate |]. split; reflexivity.
Qed.

(** * Further properties of the handlers *)

(** ** What the handlers leave alone *)

(** X1: List, Read and the existence check never change the collection,
    whatever the request is and however they answer it. *)
Theorem X1_reads_keep_collection (jsonString : string -> string)
        (w : ResponseWriter) (r : Request) (todoItems : list TodoItem) :
  fst <$> getTodoItems jsonString w r todoItems = Some todoItems
  /\ fst <$> getTodoItem jsonString w r todoItems = Some todoItems
  /\ fst <$> getTodoItemExists w r todoItems = Some todoItems.
Proof.
  split; [done |]. split.
  - unfold getTodoItem. destruct (strconv.Atoi _) as [id [e |]]; [done |].
    destruct (Z.ltb_spec id 0); [done |].
    destruct (Z.ltb_spec (len todoItems - 1) id); [done |]. cbn [orb].
    destruct (index_is_Some todoItems id) as [x ->]; [lia | done].
  - unfold getTodoItemExists. destruct (strconv.Atoi _) as [id [e |]]; [done |].
    by destruct (_ || _).
Qed.

(** X2: when Create, Replace or Delete answers with a 4xx status the
    collection is exactly what it was before the request. *)
Theorem X2_rejected_write_keeps_collection (jsonString : string -> string) (rt : Route)
        (r : Request) (todoItems todoItems' : list TodoItem) (w : ResponseWriter) :
  In rt [POST_todo_item; PUT_todo_item_id; DELETE_todo_item_id] ->
  router jsonString rt (newResponse r) r todoItems = Some (todoItems', w) ->
  400 <= status w ->
  todoItems' = todoItems.
Proof.
  intros Hrt Hrun Hst. apply (failure_keeps_collection jsonString rt r _ _ w); [| done..].
  cbn in Hrt. by destruct Hrt as [<- | [<- | [<- | []]]].
Qed.

Lemma X2_rejected_write_keeps_collection_witness :
  let r := request POST "" [("content", "buy eggs"); ("done", "maybe")] in
  let w := Write (WriteHeader (newResponse r) StatusBadRequest) err_done_type in
  In POST_todo_item [POST_todo_item; PUT_todo_item_id; DELETE_todo_item_id] /\
  router jsonQuote POST_todo_item (newResponse r) r [buy_milk] = Some ([buy_milk], w) /\
  400 <= status w /\
  [buy_milk] = [buy_milk].
Proof.
  intros r w.
  assert (Hrt : In POST_todo_item [POST_todo_item; PUT_todo_item_id; DELETE_todo_item_id])
    by (left; reflexivity).
  assert (Hrun : router jsonQuote POST_todo_item (newResponse r) r [buy_milk]
                 = Some ([buy_milk], w)) by (vm_compute; reflexivity).
  assert (Hst : 400 <= status w) by (vm_compute; discriminate).
  repeat (split; [assumption |]).
  exact (X2_rejected_write_keeps_collection jsonQuote POST_todo_item r [buy_milk] [buy_milk] w
           Hrt Hrun Hst).
Defined.



(** X4: no request makes a handler panic: every index and slice
    expression on [todoItems] is reached only with an id the bounds check
    has let through. *)
Theorem X4_no_handler_panics (jsonString : string -> string) (rt : Route)
        (w : ResponseWriter) (r : Request) (todoItems : list TodoItem) :
  exists todoItems' w', router jsonString rt w r todoItems = Some (todoItems', w').
Proof.
  destruct (handlers_do_not_panic jsonString rt w r todoItems) as [[s' w'] H]. eauto.
Qed.

(** X5: a successful Create makes the collection one longer and leaves
    every item that was there at its index. *)
Theorem X5_create_keeps_existing_items (r : Request) (todoItems : list TodoItem)
        (done : bool) :
  ParseForm r = false ->
  strconv.ParseBool (FormValue r "done") = (done, None) ->
  exists todoItems' w,
    createTodoItem (newResponse r) r todoItems = Some (todoItems', w)
    /\ len todoItems' = len todoItems + 1
    /\ (forall j, j <> len todoItems -> index todoItems' j = index todoItems j).
Proof.
  intros Hform Hdone. rewrite (createTodoItem_valid _ _ _ _ Hform Hdone).
  do 2 eexists. split; [reflexivity |].
  split; [rewrite len_app; unfold len at 2; cbn; lia |].
  intros j Hj. unfold index, in_range. rewrite len_app. unfold len at 2. cbn [length].
  destruct (Z.leb_spec 0 j); cbn [andb]; [| done].
  destruct (Z.ltb_spec j (len todoItems)).
  - destruct (Z.ltb_spec j (len todoItems + Z.of_nat 1)); [| lia].
    apply lookup_app_l. unfold len in *. lia.
  - destruct (Z.ltb_spec j (len todoItems + Z.of_nat 1)); [lia | done].
Qed.

Lemma X5_create_keeps_existing_items_witness :
  let r := request POST "" [("content", "pay rent"); ("done", "0")] in
  ParseForm r = false /\
  strconv.ParseBool (FormValue r "done") = (false, None) /\
  exists todoItems' w,
    createTodoItem (newResponse r) r [buy_milk; walk_dog] = Some (todoItems', w)
    /\ len todoItems' = len [buy_milk; walk_dog] + 1
    /\ (forall j, j <> len [buy_milk; walk_dog] ->
                  index todoItems' j = index [buy_milk; walk_dog] j).
Proof.
  intros r.
  assert (Hform : ParseForm r = false) by reflexivity.
  assert (Hdone : strconv.ParseBool (FormValue r "done") = (false, None))
    by (vm_compute; reflexivity).
  repeat (split; [assumption |]).
  exact (X5_create_keeps_existing_items r [buy_milk; walk_dog] false Hform Hdone).
Defined.

(** X6: whatever an Update request is and however it is answered, the
    collection keeps its length and every item at an index other than
    the id of the request. *)
Theorem X6_update_touches_only_id (w : ResponseWriter) (r : Request)
        (todoItems todoItems' : list TodoItem) (w' : ResponseWriter) :
  updateTodoItem w r todoItems = Some (todoItems', w') ->
  len todoItems' = len todoItems
  /\ (forall j, j <> fst (strconv.Atoi (PathValue r "id")) ->
                index todoItems' j = index todoItems j).
Proof.
  intros Hrun.
  destruct (strconv.Atoi (PathValue r "id")) as [id err] eqn:Hid. cbn [fst].
  destruct err as [e |];
    [unfold updateTodoItem in Hrun; rewrite Hid in Hrun; by injection Hrun as <- _ |].
  destruct (Z.lt_ge_cases id 0) as [Hneg | Hpos];
    [unfold updateTodoItem in Hrun; rewrite Hid, guard_out_of_range in Hrun by lia;
     by injection Hrun as <- _ |].
  destruct (Z.lt_ge_cases id (len todoItems)) as [Hin | Hout];
    [| unfold updateTodoItem in Hrun; rewrite Hid, guard_out_of_range in Hrun by lia;
       by injection Hrun as <- _].
  destruct (ParseForm r) eqn:Hform;
    [rewrite (updateTodoItem_invalid_form _ _ _ _ Hid) in Hrun by (done || lia);
     by injection Hrun as <- _ |].
  destruct (index_is_Some todoItems id) as [item Hitem]; [lia |].
  destruct (updateTodoItem_valid w r todoItems id item Hid Hitem Hform)
    as (items1 & _ & Hlen & Hframe & Heq).
  rewrite Heq in Hrun. clear Heq.
  destruct (negb (String.eqb (FormValue r "done") ""));
    [| by injection Hrun as <- _].
  destruct (strconv.ParseBool (FormValue r "done")) as [dn [e |]];
    [by injection Hrun as <- _ |].
  injection Hrun as <- _. rewrite len_insert. split; [done |].
  intros j Hj. rewrite index_store_ne by lia. by apply Hframe.
Qed.

Lemma X6_update_touches_only_id_witness :
  let r := request PATCH "1" [("content", "walk the cat"); ("done", "maybe")] in
  let todoItems := [buy_milk; walk_dog; pay_rent] in
  let todoItems' := [buy_milk; {| Content := "walk the cat"; Done := true |}; pay_rent] in
  let w' := Write (WriteHeader (newResponse r) StatusBadRequest) err_done_type in
  updateTodoItem (newResponse r) r todoItems = Some (todoItems', w') /\
  len todoItems' = len todoItems
  /\ (forall j, j <> fst (strconv.Atoi (PathValue r "id")) ->
                index todoItems' j = index todoItems j).
Proof.
  intros r todoItems todoItems' w'.
  assert (Hrun : updateTodoItem (newResponse r) r todoItems = Some (todoItems', w'))
    by (vm_compute; reflexivity).
  split; [assumption |].
  exact (X6_update_touches_only_id (newResponse r) r todoItems todoItems' w' Hrun).
Defined.

(** ** What the body must carry *)





(** X9: an Update whose form parsed and carries neither field, or
    carries both empty, is answered 200 and changes nothing. *)
Theorem X9_empty_update_changes_nothing (w : ResponseWriter) (r : Request)
        (todoItems : list TodoItem) (id : Z) :
  strconv.Atoi (PathValue r "id") = (id, None) ->
  0 <= id < len todoItems ->
  ParseForm r = false ->
  Form r !! "content" = None \/ FormValue r "content" = "" ->
  Form r !! "done" = None \/ FormValue r "done" = "" ->
  updateTodoItem w r todoItems = Some (todoItems, WriteHeader w StatusOK).
Proof.
  intros Hid Hin Hform Hc Hd.
  assert (Hc' : FormValue r "content" = "")
    by (destruct Hc; [by apply FormValue_omitted | done]).
  assert (Hd' : FormValue r "done" = "")
    by (destruct Hd; [by apply FormValue_omitted | done]).
  unfold updateTodoItem. by rewrite Hid, guard_in_range, Hform, Hc', Hd'.
Qed.

Lemma X9_empty_update_changes_nothing_witness :
  let r := request PATCH "0" [("content", "")] in
  strconv.Atoi (PathValue r "id") = (0, None) /\ 0 <= 0 < len [buy_milk] /\
  ParseForm r = false /\
  (Form r !! "content" = None \/ FormValue r "content" = "") /\
  (Form r !! "done" = None \/ FormValue r "done" = "") /\
  updateTodoItem (newResponse r) r [buy_milk]
  = Some ([buy_milk], WriteHeader (newResponse r) StatusOK).
Proof.
  intros r.
  assert (Hid : strconv.Atoi (PathValue r "id") = (0, None)) by (vm_compute; reflexivity).
  assert (Hin : 0 <= 0 < len [buy_milk]) by (vm_compute; split; [discriminate | reflexivity]).
  assert (Hform : ParseForm r = false) by reflexivity.
  assert (Hc : Form r !! "content" = None \/ FormValue r "content" = "")
    by (right; vm_compute; reflexivity).
  assert (Hd : Form r !! "done" = None \/ FormValue r "done" = "")
    by (left; vm_compute; reflexivity).
  repeat (split; [assumption |]).
  exact (X9_empty_update_changes_nothing (newResponse r) r [buy_milk] 0 Hid Hin Hform Hc Hd).
Defined.

(** ** How the operations compose *)

(** X10: deleting the item a successful Create has just appended, at the
    index Create reported, gives back the collection as it was before
    the Create. *)
Theorem X10_create_then_delete_restores (r r' : Request) (todoItems : list TodoItem)
        (done : bool) :
  ParseForm r = false ->
  strconv.ParseBool (FormValue r "done") = (done, None) ->
  strconv.Atoi (PathValue r' "id") = (len todoItems, None) ->
  exists created w w',
    createTodoItem (newResponse r) r todoItems = Some (created, w)
    /\ status w = 201
    /\ deleteTodoItem (newResponse r') r' created = Some (todoItems, w')
    /\ status w' = 200.
Proof.
  intros Hform Hdone Hid.
  rewrite (createTodoItem_valid _ _ _ _ Hform Hdone).
  do 3 eexists. split; [reflexivity |]. split; [done |].
  rewrite (deleteTodoItem_in_range _ _ _ _ Hid)
    by (rewrite len_app; unfold len; cbn; lia).
  unfold len. rewrite Nat2Z.id, take_app_length.
  rewrite drop_ge by (rewrite length_app; cbn; lia).
  rewrite app_nil_r. done.
Qed.

Lemma X10_create_then_delete_restores_witness :
  let r := request POST "" [("content", "pay rent"); ("done", "f")] in
  let r' := request DELETE "2" [] in
  ParseForm r = false /\
  strconv.ParseBool (FormValue r "done") = (false, None) /\
  strconv.Atoi (PathValue r' "id") = (len [buy_milk; walk_dog], None) /\
  exists created w w',
    createTodoItem (newResponse r) r [buy_milk; walk_dog] = Some (created, w)
    /\ status w = 201
    /\ deleteTodoItem (newResponse r') r' created = Some ([buy_milk; walk_dog], w')
    /\ status w' = 200.
Proof.
  intros r r'.
  assert (Hform : ParseForm r = false) by reflexivity.
  assert (Hdone : strconv.ParseBool (FormValue r "done") = (false, None))
    by (vm_compute; reflexivity).
  assert (Hid : strconv.Atoi (PathValue r' "id") = (len [buy_milk; walk_dog], None))
    by (vm_compute; reflexivity).
  repeat (split; [assumption |]).
  exact (X10_create_then_delete_restores r r' [buy_milk; walk_dog] false Hform Hdone Hid).
Defined.

(** X11: after a successful Replace at [id], a Read at [id] answers 200
    with the encoding of the pair the Replace sent. *)
Theorem X11_replace_then_read (jsonString : string -> string) (r r' : Request)
        (todoItems : list TodoItem) (id : Z) (done : bool) :
  strconv.Atoi (PathValue r "id") = (id, None) ->
  0 <= id < len todoItems ->
  ParseForm r = false ->
  strconv.ParseBool (FormValue r "done") = (done, None) ->
  Method r' = GET ->
  strconv.Atoi (PathValue r' "id") = (id, None) ->
  let item := {| Content := FormValue r "content"; Done := done |} in
  exists replaced w w',
    replaceTodoItem (newResponse r) r todoItems = Some (replaced, w)
    /\ getTodoItem jsonString (newResponse r') r' replaced = Some (replaced, w')
    /\ status w' = 200
    /\ body w' = marshalTodoItem jsonString item +:+ newline.
Proof.
  intros Hid Hin Hform Hdone Hget Hid' item.
  rewrite (replaceTodoItem_valid _ _ _ _ _ Hid Hin Hform Hdone).
  do 3 eexists. split; [reflexivity |].
  rewrite (getTodoItem_in_range jsonString _ _ _ _ item Hid' (index_store_eq _ _ _ Hin)).
  split; [reflexivity |].
  destruct (Encode_fresh r' (marshalTodoItem jsonString item)) as (Hs & Hb & _);
    [by rewrite Hget | done].
Qed.

Lemma X11_replace_then_read_witness :
  let r := request PUT "1" [("content", "walk the cat"); ("done", "T")] in
  let r' := request GET "1" [] in
  let item := {| Content := FormValue r "content"; Done := true |} in
  strconv.Atoi (PathValue r "id") = (1, None) /\ 0 <= 1 < len [buy_milk; walk_dog] /\
  ParseForm r = false /\ strconv.ParseBool (FormValue r "done") = (true, None) /\
  Method r' = GET /\ strconv.Atoi (PathValue r' "id") = (1, None) /\
  exists replaced w w',
    replaceTodoItem (newResponse r) r [buy_milk; walk_dog] = Some (replaced, w)
    /\ getTodoItem jsonQuote (newResponse r') r' replaced = Some (replaced, w')
    /\ status w' = 200
    /\ body w' = marshalTodoItem jsonQuote item +:+ newline.
Proof.
  intros r r' item.
  assert (Hid : strconv.Atoi (PathValue r "id") = (1, None)) by (vm_compute; reflexivity).
  assert (Hin : 0 <= 1 < len [buy_milk; walk_dog])
    by (vm_compute; split; [discriminate | reflexivity]).
  assert (Hform : ParseForm r = false) by reflexivity.
  assert (Hdone : strconv.ParseBool (FormValue r "done") = (true, None))
    by (vm_compute; reflexivity).
  assert (Hget : Method r' = GET) by reflexivity.
  assert (Hid' : strconv.Atoi (PathValue r' "id") = (1, None)) by (vm_compute; reflexivity).
  repeat (split; [assumption |]).
  exact (X11_replace_then_read jsonQuote r r' [buy_milk; walk_dog] 1 true
           Hid Hin Hform Hdone Hget Hid').
Defined.

(** The collection an Update leaves, for a valid id and a form that
    parsed, whether it answers 200 or 400. *)
Lemma updateTodoItem_collection (w : ResponseWriter) (r : Request)
      (todoItems : list TodoItem) (id : Z) (item : TodoItem) :
  strconv.Atoi (PathValue r "id") = (id, None) ->
  index todoItems id = Some item ->
  ParseForm r = false ->
  fst <$> updateTodoItem w r todoItems
  = Some (<[Z.to_nat id := after_update r item]> todoItems).
Proof.
  intros Hid Hitem Hform.
  pose proof (index_Some_range _ _ _ Hitem) as Hin.
  assert (Hat : todoItems !! Z.to_nat id = Some item) by (by rewrite <- index_in_range).
  unfold updateTodoItem, after_update, after_content.
  rewrite Hid, guard_in_range, Hform by done.
  destruct (negb (String.eqb (FormValue r "content") "")).
  - rewrite (store_Content_in_range _ _ _ _ Hitem). cbn [mbind option_bind].
    destruct (negb (String.eqb (FormValue r "done") "")); [| done].
    destruct (strconv.ParseBool (FormValue r "done")) as [dn [e |]]; [done |].
    rewrite (store_Done_in_range _ _ _ _ (index_store_eq _ _ _ Hin)).
    cbn. by rewrite list_insert_insert_eq.
  - cbn [mbind option_bind].
    destruct (negb (String.eqb (FormValue r "done") ""));
      [| cbn; by rewrite list_insert_id].
    destruct (strconv.ParseBool (FormValue r "done")) as [dn [e |]];
      [cbn; by rewrite list_insert_id |].
    by rewrite (store_Done_in_range _ _ _ _ Hitem).
Qed.

Lemma after_update_idempotent (r : Request) (item : TodoItem) :
  after_update r (after_update r item) = after_update r item.
Proof.
  unfold after_update, after_content. destruct item as [c d].
  destruct (negb (String.eqb (FormValue r "content") ""));
    destruct (negb (String.eqb (FormValue r "done") ""));
    try destruct (strconv.ParseBool (FormValue r "done")) as [dn [e |]]; done.
Qed.

(** X12: Replace and Update are idempotent on the collection: sending
    the same request again, whatever it was and however it was answered,
    leaves the collection the first one made. *)
Theorem X12_put_and_patch_are_idempotent (jsonString : string -> string) (rt : Route)
        (w : ResponseWriter) (r : Request) (todoItems once : list TodoItem)
        (w1 : ResponseWriter) :
  In rt [PUT_todo_item_id; PATCH_todo_item_id] ->
  router jsonString rt w r todoItems = Some (once, w1) ->
  fst <$> router jsonString rt w r once = Some once.
Proof.
  intros Hrt Hrun.
  assert (Hsame : once = todoItems -> fst <$> router jsonString rt w r once = Some once).
  { intros ->. by rewrite Hrun. }
  destruct (strconv.Atoi (PathValue r "id")) as [id err] eqn:Hid.
  cbn in Hrt. destruct Hrt as [<- | [<- | []]]; cbn [router] in *.
  - (* PUT *)
    destruct err as [e |];
      [apply Hsame; unfold replaceTodoItem in Hrun; rewrite Hid in Hrun;
       by injection Hrun as <- _ |].
    destruct (Z.lt_ge_cases id 0);
      [apply Hsame; unfold replaceTodoItem in Hrun;
       rewrite Hid, guard_out_of_range in Hrun by lia; by injection Hrun as <- _ |].
    destruct (Z.lt_ge_cases id (len todoItems));
      [| apply Hsame; unfold replaceTodoItem in Hrun;
         rewrite Hid, guard_out_of_range in Hrun by lia; by injection Hrun as <- _].
    destruct (ParseForm r) eqn:Hform;
      [apply Hsame; unfold replaceTodoItem in Hrun;
       rewrite Hid, guard_in_range, Hform in Hrun by lia; by injection Hrun as <- _ |].
    destruct (strconv.ParseBool (FormValue r "done")) as [dn [e |]] eqn:Hdone;
      [apply Hsame; unfold replaceTodoItem in Hrun;
       rewrite Hid, guard_in_range, Hform, Hdone in Hrun by lia;
       by injection Hrun as <- _ |].
    assert (Hin : 0 <= id < len todoItems) by lia.
    rewrite (replaceTodoItem_valid _ _ _ _ _ Hid Hin Hform Hdone) in Hrun.
    injection Hrun as <- _.
    rewrite (replaceTodoItem_valid _ _ _ id dn Hid) by (rewrite ?len_insert; done).
    cbn. by rewrite list_insert_insert_eq.
  - (* PATCH *)
    destruct err as [e |];
      [apply Hsame; unfold updateTodoItem in Hrun; rewrite Hid in Hrun;
       by injection Hrun as <- _ |].
    destruct (Z.lt_ge_cases id 0);
      [apply Hsame; unfold updateTodoItem in Hrun;
       rewrite Hid, guard_out_of_range in Hrun by lia; by injection Hrun as <- _ |].
    destruct (Z.lt_ge_cases id (len todoItems));
      [| apply Hsame; unfold updateTodoItem in Hrun;
         rewrite Hid, guard_out_of_range in Hrun by lia; by injection Hrun as <- _].
    destruct (ParseForm r) eqn:Hform;
      [apply Hsame;
       rewrite (updateTodoItem_invalid_form _ _ _ _ Hid) in Hrun by (done || lia);
       by injection Hrun as <- _ |].
    destruct (index_is_Some todoItems id) as [item Hitem]; [lia |].
    pose proof (updateTodoItem_collection w r todoItems id item Hid Hitem Hform) as Hfirst.
    rewrite Hrun in Hfirst. cbn in Hfirst. injection Hfirst as ->.
    rewrite (updateTodoItem_collection w r _ id (after_update r item) Hid)
      by (done || apply index_store_eq; lia).
    by rewrite after_update_idempotent, list_insert_insert_eq.
Qed.

Lemma X12_put_and_patch_are_idempotent_witness :
  let r := request PATCH "0" [("content", "buy eggs"); ("done", "maybe")] in
  let once := [{| Content := "buy eggs"; Done := false |}] in
  let w1 := Write (WriteHeader (newResponse r) StatusBadRequest) err_done_type in
  In PATCH_todo_item_id [PUT_todo_item_id; PATCH_todo_item_id] /\
  router jsonQuote PATCH_todo_item_id (newResponse r) r [buy_milk] = Some (once, w1) /\
  fst <$> router jsonQuote PATCH_todo_item_id (newResponse r) r once = Some once.
Proof.
  intros r once w1.
  assert (Hrt : In PATCH_todo_item_id [PUT_todo_item_id; PATCH_todo_item_id])
    by (right; left; reflexivity).
  assert (Hrun : router jsonQuote PATCH_todo_item_id (newResponse r) r [buy_milk]
                 = Some (once, w1)) by (vm_compute; reflexivity).
  repeat (split; [assumption |]).
  exact (X12_put_and_patch_are_idempotent jsonQuote PATCH_todo_item_id (newResponse r) r
           [buy_milk] once w1 Hrt Hrun).
Defined.

(** X13: an Update that carries a non-empty [content] and a well-formed
    [done] leaves the same collection as a Replace with the same
    request. *)
Theorem X13_full_update_is_replace (w : ResponseWriter) (r : Request)
        (todoItems : list TodoItem) (id : Z) (done : bool) :
  strconv.Atoi (PathValue r "id") = (id, None) ->
  0 <= id < len todoItems ->
  ParseForm r = false ->
  FormValue r "content" <> "" ->
  strconv.ParseBool (FormValue r "done") = (done, None) ->
  fst <$> updateTodoItem w r todoItems = fst <$> replaceTodoItem w r todoItems
  /\ snd <$> updateTodoItem w r todoItems = Some (WriteHeader w StatusOK).
Proof.
  intros Hid Hin Hform Hc Hdone.
  assert (Hd : FormValue r "done" <> "").
  { intros Hempty. rewrite Hempty in Hdone. discriminate. }
  destruct (index_is_Some todoItems id Hin) as [item Hitem].
  rewrite (replaceTodoItem_valid _ _ _ _ _ Hid Hin Hform Hdone).
  rewrite (updateTodoItem_collection w r todoItems id item Hid Hitem Hform).
  split.
  - unfold after_update, after_content.
    by rewrite (eqb_empty_false _ Hc), (eqb_empty_false _ Hd), Hdone.
  - destruct (updateTodoItem_valid w r todoItems id item Hid Hitem Hform)
      as (items1 & _ & _ & _ & ->).
    by rewrite (eqb_empty_false _ Hd), Hdone.
Qed.

Lemma X13_full_update_is_replace_witness :
  let r := request PATCH "1" [("content", "walk the cat"); ("done", "1")] in
  let todoItems := [buy_milk; walk_dog] in
  strconv.Atoi (PathValue r "id") = (1, None) /\ 0 <= 1 < len todoItems /\
  ParseForm r = false /\ FormValue r "content" <> "" /\
  strconv.ParseBool (FormValue r "done") = (true, None) /\
  fst <$> updateTodoItem (newResponse r) r todoItems
  = fst <$> replaceTodoItem (newResponse r) r todoItems
  /\ snd <$> updateTodoItem (newResponse r) r todoItems
     = Some (WriteHeader (newResponse r) StatusOK).
Proof.
  intros r todoItems.
  assert (Hid : strconv.Atoi (PathValue r "id") = (1, None)) by (vm_compute; reflexivity).
  assert (Hin : 0 <= 1 < len todoItems) by (vm_compute; split; [discriminate | reflexivity]).
  assert (Hform : ParseForm r = false) by reflexivity.
  assert (Hc : FormValue r "content" <> "") by (vm_compute; discriminate).
  assert (Hdone : strconv.ParseBool (FormValue r "done") = (true, None))
    by (vm_compute; reflexivity).
  repeat (split; [assumption |]).
  exact (X13_full_update_is_replace (newResponse r) r todoItems 1 true
           Hid Hin Hform Hc Hdone).
Defined.

(** X14: Delete is not idempotent.  Sent twice with an id that is not
    the last index, it is answered 200 both times and also removes the
    item that followed the first one deleted. *)
Theorem X14_repeated_delete_removes_the_next (r : Request) (todoItems : list TodoItem)
        (id : Z) :
  strconv.Atoi (PathValue r "id") = (id, None) ->
  0 <= id -> id + 1 < len todoItems ->
  exists once w w',
    deleteTodoItem (newResponse r) r todoItems = Some (once, w)
    /\ status w = 200
    /\ deleteTodoItem (newResponse r) r once
       = Some (take (Z.to_nat id) todoItems ++ drop (S (S (Z.to_nat id))) todoItems, w')
    /\ status w' = 200.
Proof.
  intros Hid Hpos Hnext.
  set (n := Z.to_nat id).
  assert (Hn : (S n < length todoItems)%nat) by (unfold len in Hnext; lia).
  rewrite (deleteTodoItem_in_range _ _ _ _ Hid) by lia. fold n.
  do 3 eexists. split; [reflexivity |]. split; [done |].
  rewrite (deleteTodoItem_in_range _ _ _ _ Hid)
    by (unfold len; rewrite removal_length by lia; unfold len in Hnext; lia).
  fold n. split.
  - rewrite take_app_length' by (rewrite length_take_le; lia).
    replace (S n) with (n + 1)%nat at 1 by lia.
    rewrite drop_app_add' by (rewrite length_take_le; lia).
    rewrite drop_drop. replace (S n + 1)%nat with (S (S n)) by lia. reflexivity.
  - reflexivity.
Qed.

Lemma X14_repeated_delete_removes_the_next_witness :
  let r := request DELETE "0" [] in
  let todoItems := [buy_milk; walk_dog; pay_rent] in
  strconv.Atoi (PathValue r "id") = (0, None) /\ 0 <= 0 /\ 0 + 1 < len todoItems /\
  exists once w w',
    deleteTodoItem (newResponse r) r todoItems = Some (once, w)
    /\ status w = 200
    /\ deleteTodoItem (newResponse r) r once
       = Some (take (Z.to_nat 0) todoItems ++ drop (S (S (Z.to_nat 0))) todoItems, w')
    /\ status w' = 200.
Proof.
  intros r todoItems.
  assert (Hid : strconv.Atoi (PathValue r "id") = (0, None)) by (vm_compute; reflexivity).
  assert (Hpos : 0 <= 0) by (vm_compute; discriminate).
  assert (Hnext : 0 + 1 < len todoItems) by (vm_compute; reflexivity).
  repeat (split; [assumption |]).
  exact (X14_repeated_delete_removes_the_next r todoItems 0 Hid Hpos Hnext).
Defined.

(** ** The collections the server can hold *)




(** ** The text of the id *)

(** X16: a handler looks at the id only through the integer
    [strconv.Atoi] makes of it: two requests that differ only in the text
    of the id, and whose texts parse alike, are served alike. *)
Theorem X16_id_texts_of_one_value_are_served_alike (jsonString : string -> string)
        (rt : Route) (w : ResponseWriter) (r r' : Request) (todoItems : list TodoItem) :
  URLHost r = URLHost r' -> Form r = Form r' -> formErr r = formErr r' ->
  strconv.Atoi (PathValue r "id") = strconv.Atoi (PathValue r' "id") ->
  router jsonString rt w r todoItems = router jsonString rt w r' todoItems.
Proof.
  intros Hhost Hfields Herr Hid.
  destruct rt; cbn [router];
    unfold getTodoItems, getTodoItem, getTodoItemExists, createTodoItem,
           replaceTodoItem, updateTodoItem, deleteTodoItem, FormValue, ParseForm;
    rewrite <- ?Hid, <- ?Hhost, <- ?Hfields, <- ?Herr; reflexivity.
Qed.

Lemma X16_id_texts_of_one_value_are_served_alike_witness :
  let r := request GET "1" [] in
  let r' := request GET "+01" [] in
  URLHost r = URLHost r' /\ Form r = Form r' /\ formErr r = formErr r' /\
  strconv.Atoi (PathValue r "id") = strconv.Atoi (PathValue r' "id") /\
  router jsonQuote GET_todo_item_id (newResponse r) r [buy_milk; walk_dog]
  = router jsonQuote GET_todo_item_id (newResponse r) r' [buy_milk; walk_dog].
Proof.
  intros r r'.
  assert (Hhost : URLHost r = URLHost r') by reflexivity.
  assert (Hfields : Form r = Form r') by reflexivity.
  assert (Herr : formErr r = formErr r') by reflexivity.
  assert (Hid : strconv.Atoi (PathValue r "id") = strconv.Atoi (PathValue r' "id"))
    by (vm_compute; reflexivity).
  repeat (split; [assumption |]).
  exact (X16_id_texts_of_one_value_are_served_alike jsonQuote GET_todo_item_id
           (newResponse r) r r' [buy_milk; walk_dog] Hhost Hfields Herr Hid).
Defined.

(** ** GET /todo-item *)

Lemma append_assoc (a b c : string) : (a +:+ b) +:+ c = a +:+ (b +:+ c).
Proof.
  induction a as [| x a IH]; [done |].
  change (String x ((a +:+ b) +:+ c) = String x (a +:+ (b +:+ c))). by rewrite IH.
Qed.

Lemma marshalElems_cons (jsonString : string -> string) (x y : TodoItem) (rest : list TodoItem) :
  marshalElems jsonString (x :: y :: rest)
  = marshalTodoItem jsonString x +:+ "," +:+ marshalElems jsonString (y :: rest).
Proof. reflexivity. Qed.

Lemma marshalElems_snoc (jsonString : string -> string) (items : list TodoItem) (x : TodoItem) :
  items <> [] ->
  marshalElems jsonString (items ++ [x])
  = marshalElems jsonString items +:+ "," +:+ marshalTodoItem jsonString x.
Proof.
  induction items as [| a items IH]; [done |]. intros _.
  destruct items as [| b items]; [reflexivity |].
  change ((a :: b :: items) ++ [x]) with (a :: (b :: items) ++ [x]).
  change ((b :: items) ++ [x]) with (b :: (items ++ [x])) at 1.
  rewrite marshalElems_cons.
  change (b :: (items ++ [x])) with ((b :: items) ++ [x]).
  rewrite IH by done. rewrite marshalElems_cons.
  by rewrite !append_assoc.
Qed.

(** X17: List after a successful Create on a collection that was not
    empty answers 200 with the array it would have sent before, the new
    item added as its last element. *)
Theorem X17_list_after_create (jsonString : string -> string) (r r' : Request)
        (todoItems : list TodoItem) (done : bool) :
  ParseForm r = false ->
  strconv.ParseBool (FormValue r "done") = (done, None) ->
  Method r' = GET ->
  todoItems <> [] ->
  let item := {| Content := FormValue r "content"; Done := done |} in
  exists created w w' before,
    getTodoItems jsonString (newResponse r') r' todoItems = Some (todoItems, before)
    /\ body before = "[" +:+ marshalElems jsonString todoItems +:+ "]" +:+ newline
    /\ createTodoItem (newResponse r) r todoItems = Some (created, w)
    /\ getTodoItems jsonString (newResponse r') r' created = Some (created, w')
    /\ status w' = 200
    /\ body w' = "[" +:+ marshalElems jsonString todoItems +:+ ","
                 +:+ marshalTodoItem jsonString item +:+ "]" +:+ newline.
Proof.
  intros Hform Hdone Hget Hne item.
  rewrite (createTodoItem_valid _ _ _ _ Hform Hdone).
  assert (Hm : is_HEAD (Method r') = false) by (by rewrite Hget).
  do 4 eexists. split; [reflexivity |].
  destruct (Encode_fresh r' (marshalTodoItems jsonString todoItems) Hm) as (_ & Hb & _).
  split; [| split; [reflexivity | split; [reflexivity |]]].
  - etransitivity; [exact Hb |]. unfold marshalTodoItems.
    by rewrite !append_assoc.
  - destruct (Encode_fresh r' (marshalTodoItems jsonString (todoItems ++ [item])) Hm)
      as (Hs' & Hb' & _).
    split; [exact Hs' |]. etransitivity; [exact Hb' |]. unfold marshalTodoItems.
    rewrite marshalElems_snoc by done. by rewrite !append_assoc.
Qed.

Lemma X17_list_after_create_witness :
  let r := request POST "" [("content", "pay rent"); ("done", "F")] in
  let r' := request GET "" [] in
  let item := {| Content := FormValue r "content"; Done := false |} in
  ParseForm r = false /\
  strconv.ParseBool (FormValue r "done") = (false, None) /\
  Method r' = GET /\ [buy_milk] <> [] /\
  exists created w w' before,
    getTodoItems jsonQuote (newResponse r') r' [buy_milk] = Some ([buy_milk], before)
    /\ body before = "[" +:+ marshalElems jsonQuote [buy_milk] +:+ "]" +:+ newline
    /\ createTodoItem (newResponse r) r [buy_milk] = Some (created, w)
    /\ getTodoItems jsonQuote (newResponse r') r' created = Some (created, w')
    /\ status w' = 200
    /\ body w' = "[" +:+ marshalElems jsonQuote [buy_milk] +:+ ","
                 +:+ marshalTodoItem jsonQuote item +:+ "]" +:+ newline.
Proof.
  intros r r' item.
  assert (Hform : ParseForm r = false) by reflexivity.
  assert (Hdone : strconv.ParseBool (FormValue r "done") = (false, None))
    by (vm_compute; reflexivity).
  assert (Hget : Method r' = GET) by reflexivity.
  assert (Hne : [buy_milk] <> []) by discriminate.
  repeat (split; [assumption |]).
  exact (X17_list_after_create jsonQuote r r' [buy_milk] false Hform Hdone Hget Hne).
Defined.

(** ** Panics and the guard in the three programs *)

(** X18: in the routing program every error [Shutdown] returns makes
    [main] panic, and that panic does reach the guard: [cancel], deferred
    later, runs first and stops nothing, then [recoverer] prints its line
    and the process exits with status 1.  Without an error [main] goes
    on. *)
Theorem X18_shutdown_error_reaches_the_guard (e : lifecycle.error) :
  lifecycle.main_shutdown (Some e) = lifecycle.Exits 1 (lifecycle.RecovererLine (lifecycle.Error e))
  /\ lifecycle.render_head (lifecycle.RecovererLine (lifecycle.Error e))
     = "unexpected panic occurred: " +:+ lifecycle.Error e
  /\ lifecycle.main_shutdown None = lifecycle.Continues.
Proof. split; [| split]; reflexivity. Qed.

(** X19: in the two other programs a panic over a listener error never
    reaches a guard.  In the shutdown program an error other than the
    shutdown one makes [launchServer] panic in a goroutine that has
    deferred nothing, so the process ends with the runtime's report and
    status 2 although [main] deferred [recoverer]; the shutdown error and
    no error are not fatal, and whatever [Shutdown] returns is dropped.
    In the hello-world program [main] itself panics over every error,
    the shutdown one included, with nothing deferred: status 2 again. *)
Theorem X19_listener_panic_escapes_the_guard (msg : string) (e : lifecycle.error)
        (err : option lifecycle.error) :
  shutdown_example.server_goroutine (Some (lifecycle.OtherError msg))
  = lifecycle.Exits 2 (lifecycle.RuntimeTraceback msg)
  /\ shutdown_example.server_goroutine (Some lifecycle.ErrServerClosed) = lifecycle.Continues
  /\ shutdown_example.server_goroutine None = lifecycle.Continues
  /\ shutdown_example.main_shutdown err = lifecycle.Continues
  /\ lifecycle.unwind shutdown_example.main_defers msg
     = lifecycle.Exits 1 (lifecycle.RecovererLine msg)
  /\ hello_world.main (Some e)
     = lifecycle.Exits 2 (lifecycle.RuntimeTraceback (lifecycle.Error e)).
Proof. repeat split; reflexivity. Qed.

(** X20: [helloWorld] and [pingHandler] answer every request with
    status 200 and their text, and with no body when the request is a
    HEAD request. *)
Theorem X20_fixed_text_handlers (r : Request) :
  let hello := hello_world.helloWorld (newResponse r) r in
  let pong := shutdown_example.pingHandler (newResponse r) r in
  status hello = 200 /\ status pong = 200
  /\ body hello = (if is_HEAD (Method r) then "" else "hello, world!")
  /\ body pong = (if is_HEAD (Method r) then "" else "pong!").
Proof.
  cbn zeta. unfold hello_world.helloWorld, shutdown_example.pingHandler, Write. cbn.
  by destruct (is_HEAD (Method r)).
Qed.

(** ** The three answers to an id *)

(** X21: the status of Read and of the existence check is decided by
    the id alone: 400 when its text is not an optional sign followed by
    decimal digits with a value in the range of [int], 404 when that
    value is not an index of the collection, 200 otherwise; the
    collection stays as it is in all three cases. *)
Theorem X21_status_by_id_text (jsonString : string -> string) (r : Request)
        (todoItems : list TodoItem) :
  let expected :=
    match strconv.int_of_text (PathValue r "id") with
    | None => 400
    | Some i => if in_range todoItems i then 200 else 404
    end in
  exists w w',
    getTodoItem jsonString (newResponse r) r todoItems = Some (todoItems, w)
    /\ status w = expected
    /\ getTodoItemExists (newResponse r) r todoItems = Some (todoItems, w')
    /\ status w' = expected.
Proof.
  cbn zeta. pose proof (strconv_facts.Atoi_int_of_text (PathValue r "id")) as Hspec.
  unfold getTodoItem, getTodoItemExists.
  destruct (strconv.int_of_text (PathValue r "id")) as [i |].
  - rewrite Hspec. destruct (in_range todoItems i) eqn:Hin.
    + assert (Hr : 0 <= i < len todoItems).
      { unfold in_range in Hin. apply andb_true_iff in Hin as [H1 H2].
        apply Z.leb_le in H1. apply Z.ltb_lt in H2. done. }
      rewrite guard_in_range by done.
      destruct (index_is_Some todoItems i Hr) as [item ->].
      do 2 eexists. split; [reflexivity |]. split; [apply status_Write_fresh |].
      split; reflexivity.
    + assert (Hr : i < 0 \/ len todoItems <= i).
      { unfold in_range in Hin. apply andb_false_iff in Hin as [H | H];
          [apply Z.leb_gt in H | apply Z.ltb_ge in H]; lia. }
      rewrite guard_out_of_range by done.
      do 2 eexists. split; [reflexivity |]. split; [apply status_error_fresh |].
      split; [reflexivity | apply status_error_fresh].
  - destruct (strconv.Atoi (PathValue r "id")) as [id [e |]]; [| done].
    do 2 eexists. split; [reflexivity |]. split; [apply status_error_fresh |].
    split; [reflexivity | apply status_error_fresh].
Qed.

Lemma int_of_text_unsigned (s : string) :
  strconv.starts_with_digit s ->
  strconv.int_of_text s
  = if strconv.all_digits s
    then if (- 2 ^ 63 <=? strconv.decimal s 0) && (strconv.decimal s 0 <? 2 ^ 63)
         then Some (strconv.decimal s 0) else None
    else None.
Proof.
  intros (d & rest & Hd & ->). unfold strconv.int_of_text.
  rewrite strconv_facts.is_sign_digit, strconv_facts.minus_digit by done.
  change (String.eqb (String (strconv.chr (48 + d)) rest) "") with false.
  reflexivity.
Qed.

Lemma int_of_text_negative (s : string) :
  strconv.starts_with_digit s ->
  strconv.int_of_text (String "-" s)
  = if strconv.all_digits s
    then if (- 2 ^ 63 <=? - strconv.decimal s 0) && (- strconv.decimal s 0 <? 2 ^ 63)
         then Some (- strconv.decimal s 0) else None
    else None.
Proof.
  intros (d & rest & Hd & ->). unfold strconv.int_of_text.
  change (strconv.is_sign "-") with true. change (Ascii.eqb "-" "-") with true.
  cbv iota.
  change (String.eqb (String (strconv.chr (48 + d)) rest) "") with false.
  reflexivity.
Qed.

(** What [%d] prints denotes the integer printed. *)
Lemma int_of_text_FormatInt (n : Z) :
  strconv.int_of_text (strconv.FormatInt n)
  = if (- 2 ^ 63 <=? n) && (n <? 2 ^ 63) then Some n else None.
Proof.
  assert (Hdigits : forall u, 0 <= u ->
            let s := strconv.fmtUint (strconv.digits_fuel u) u "" in
            strconv.all_digits s = true /\ strconv.decimal s 0 = u
            /\ strconv.starts_with_digit s).
  { intros u Hu s.
    pose proof (strconv_facts.fmtUint_digits u Hu) as Hstart. fold s in Hstart.
    pose proof (strconv_facts.atoi_loop_fmtUint (strconv.digits_fuel u) u ""
                  (conj Hu (strconv_facts.digits_fuel_enough u Hu))) as Hloop.
    fold s in Hloop. clearbody s.
    rewrite strconv_facts.atoi_loop_spec in Hloop.
    change (strconv.atoi_loop "" u) with (Some u) in Hloop.
    destruct (strconv.all_digits s); [| done].
    injection Hloop as Hloop. done. }
  unfold strconv.FormatInt. destruct (Z.ltb_spec n 0) as [Hneg | Hpos].
  - destruct (Hdigits (- n) ltac:(lia)) as (Hall & Hval & Hstart).
    rewrite int_of_text_negative by done. rewrite Hall, Hval.
    by rewrite Z.opp_involutive.
  - destruct (Hdigits n Hpos) as (Hall & Hval & Hstart).
    rewrite int_of_text_unsigned by done. by rewrite Hall, Hval.
Qed.

(** X22: an id that is an integer outside the range of [int], such as
    9223372036854775808, is answered 400 on every [{id}] route, like a
    text that is no integer at all, and not 404. *)
Theorem X22_oversized_id_is_bad_request (jsonString : string -> string) (rt : Route)
        (r : Request) (todoItems : list TodoItem) (n : Z) :
  has_id rt = true ->
  accepts rt (Method r) = true ->
  n < - 2 ^ 63 \/ 2 ^ 63 <= n ->
  PathValue r "id" = strconv.FormatInt n ->
  exists w,
    ServeHTTP jsonString rt r todoItems = Some (todoItems, w)
    /\ status w = 400
    /\ body w = match rt with HEAD_todo_item_id => "" | _ => err_id_type end.
Proof.
  intros Hrt Hacc Hbig Hpath.
  pose proof (strconv_facts.Atoi_int_of_text (PathValue r "id")) as Hspec.
  rewrite Hpath, int_of_text_FormatInt in Hspec.
  assert (Hout : (- 2 ^ 63 <=? n) && (n <? 2 ^ 63) = false).
  { destruct (Z.leb_spec (- 2 ^ 63) n), (Z.ltb_spec n (2 ^ 63)); (done || lia). }
  rewrite Hout, <- Hpath in Hspec.
  destruct (snd (strconv.Atoi (PathValue r "id"))) as [e |] eqn:Herr; [| done].
  apply ServeHTTP_error; [done.. |]. by eapply id_route_bad_request.
Qed.

Lemma X22_oversized_id_is_bad_request_witness :
  let r := request DELETE "9223372036854775808" [] in
  has_id DELETE_todo_item_id = true /\
  accepts DELETE_todo_item_id (Method r) = true /\
  (9223372036854775808 < - 2 ^ 63 \/ 2 ^ 63 <= 9223372036854775808) /\
  PathValue r "id" = strconv.FormatInt 9223372036854775808 /\
  exists w,
    ServeHTTP jsonQuote DELETE_todo_item_id r [buy_milk] = Some ([buy_milk], w)
    /\ status w = 400
    /\ body w = err_id_type.
Proof.
  intros r.
  assert (Hrt : has_id DELETE_todo_item_id = true) by reflexivity.
  assert (Hacc : accepts DELETE_todo_item_id (Method r) = true) by reflexivity.
  assert (Hbig : 9223372036854775808 < - 2 ^ 63 \/ 2 ^ 63 <= 9223372036854775808)
    by (right; vm_compute; discriminate).
  assert (Hpath : PathValue r "id" = strconv.FormatInt 9223372036854775808)
    by (vm_compute; reflexivity).
  repeat (split; [assumption |]).
  exact (X22_oversized_id_is_bad_request jsonQuote DELETE_todo_item_id r [buy_milk]
           9223372036854775808 Hrt Hacc Hbig Hpath).
Defined.

(** ** The Location header *)

Ltac response_of Hrun :=
  cbn [mbind option_bind] in Hrun;
  match type of Hrun with
  | Some (_, ?x) = Some (_, ?w) =>
      let H := fresh in assert (H : w = x) by congruence; subst w; clear Hrun
  end.

(** X23: a response carries a header only when it is the 201 of a
    Create or the 200 of a Replace; no error response and no response of
    List, Read, the existence check, Update or Delete has one. *)
Theorem X23_header_only_on_create_and_replace (jsonString : string -> string) (rt : Route)
        (r : Request) (todoItems todoItems' : list TodoItem) (w : ResponseWriter) :
  router jsonString rt (newResponse r) r todoItems = Some (todoItems', w) ->
  header w <> ∅ ->
  (rt = POST_todo_item /\ status w = 201) \/ (rt = PUT_todo_item_id /\ status w = 200).
Proof.
  intros Hrun Hhdr.
  assert (Herr : forall code msg,
            header (Write (WriteHeader (newResponse r) code) msg) = ∅).
  { intros code msg. unfold Write. cbn. destruct msg; [done |].
    destruct (negb _); [done |]. by destruct (is_HEAD (Method r)). }
  assert (Hwrite : forall data, header (Write (newResponse r) data) = ∅).
  { intros data. unfold Write. cbn. destruct data; [done |]. cbn.
    by destruct (is_HEAD (Method r)). }
  destruct rt; cbn [router] in Hrun.
  - unfold getTodoItems in Hrun. response_of Hrun. unfold Encode in Hhdr. by rewrite Hwrite in Hhdr.
  - unfold getTodoItem in Hrun.
    destruct (strconv.Atoi _) as [id [e |]];
      [response_of Hrun; by rewrite Herr in Hhdr |].
    destruct (_ || _); [response_of Hrun; by rewrite Herr in Hhdr |].
    destruct (index todoItems id); [| done].
    response_of Hrun. unfold Encode in Hhdr. by rewrite Hwrite in Hhdr.
  - unfold getTodoItemExists in Hrun.
    destruct (strconv.Atoi _) as [id [e |]];
      [response_of Hrun; by rewrite Herr in Hhdr |].
    destruct (_ || _); response_of Hrun; [by rewrite Herr in Hhdr | done].
  - unfold createTodoItem in Hrun.
    destruct (ParseForm r); [response_of Hrun; by rewrite Herr in Hhdr |].
    destruct (strconv.ParseBool _) as [dn [e |]];
      [response_of Hrun; by rewrite Herr in Hhdr |].
    response_of Hrun. left; split; reflexivity.
  - unfold replaceTodoItem in Hrun.
    destruct (strconv.Atoi _) as [id [e |]];
      [response_of Hrun; by rewrite Herr in Hhdr |].
    destruct (_ || _); [response_of Hrun; by rewrite Herr in Hhdr |].
    destruct (ParseForm r); [response_of Hrun; by rewrite Herr in Hhdr |].
    destruct (strconv.ParseBool _) as [dn [e |]];
      [response_of Hrun; by rewrite Herr in Hhdr |].
    destruct (store todoItems id _); [| done].
    response_of Hrun. right; split; reflexivity.
  - unfold updateTodoItem in Hrun.
    destruct (strconv.Atoi _) as [id [e |]];
      [response_of Hrun; by rewrite Herr in Hhdr |].
    destruct (_ || _); [response_of Hrun; by rewrite Herr in Hhdr |].
    destruct (ParseForm r); [response_of Hrun; by rewrite Herr in Hhdr |].
    destruct (if negb _ then _ else _) as [items1 |]; [| done].
    cbn [mbind option_bind] in Hrun.
    destruct (negb (String.eqb (FormValue r "done") ""));
      [| by response_of Hrun].
    destruct (strconv.ParseBool _) as [dn [e |]];
      [response_of Hrun; by rewrite Herr in Hhdr |].
    destruct (store_Done items1 id dn); [| done]. by response_of Hrun.
  - unfold deleteTodoItem in Hrun.
    destruct (strconv.Atoi _) as [id [e |]];
      [response_of Hrun; by rewrite Herr in Hhdr |].
    destruct (_ || _); [response_of Hrun; by rewrite Herr in Hhdr |].
    destruct (slice_to todoItems id); [| done].
    destruct (slice_from todoItems (id + 1)); [| done]. by response_of Hrun.
Qed.

Lemma X23_header_only_on_create_and_replace_witness :
  let r := request POST "" [("content", "buy milk"); ("done", "false")] in
  let w := WriteHeader (Header_Add (newResponse r) "Location" "/todo-item/0") StatusCreated in
  router jsonQuote POST_todo_item (newResponse r) r [] = Some ([buy_milk], w) /\
  header w <> ∅ /\
  ((POST_todo_item = POST_todo_item /\ status w = 201)
   \/ (POST_todo_item = PUT_todo_item_id /\ status w = 200)).
Proof.
  intros r w.
  assert (Hrun : router jsonQuote POST_todo_item (newResponse r) r [] = Some ([buy_milk], w))
    by (vm_compute; reflexivity).
  assert (Hhdr : header w <> ∅).
  { intros Hempty. apply (f_equal (fun h => h !! "Location")) in Hempty.
    vm_compute in Hempty. discriminate. }
  repeat (split; [assumption |]).
  exact (X23_header_only_on_create_and_replace jsonQuote POST_todo_item r [] [buy_milk] w
           Hrun Hhdr).
Defined.

